(** * Lazy JIT engine (OrcLazyJIT) and the module debug-info printer

    A shallow embedding of the two translation units carried by
    lib/Analysis/ModuleDebugInfoPrinter.cpp:
    - [printFile] of the debug-info printer, and
    - the class [OrcLazyJIT] (OrcLazyJIT.h): its constructor, destructor,
      [addModule], [findSymbol], [findSymbolIn], [mangle] and the resolver
      lambda [FallbackLookup] built by [addModule].

    Strings are [string], addresses and the [unsigned] line number are [N],
    the override table is a [gmap], the member vectors are lists.  The
    engine's methods are written in a small state monad over the engine
    object and the log of native routines it has had run. *)

From stdpp Require Import gmap strings list pretty.


(** ** Output streams

    A [raw_ostream] is modelled by the text written to it so far;
    [O << s] appends.  An [unsigned] is printed in decimal. *)

Definition raw_ostream := string.

Definition write (O : raw_ostream) (s : string) : raw_ostream := O +:+ s.

Definition write_unsigned (O : raw_ostream) (n : N) : raw_ostream :=
  O +:+ pretty n.

Declare Scope ostream_scope.
Delimit Scope ostream_scope with os.
Notation "O << s" := (write O s)
  (at level 40, left associativity) : ostream_scope.
Notation "O <<# n" := (write_unsigned O n)
  (at level 40, left associativity) : ostream_scope.

(** [StringRef::empty]: the length is zero. *)
Definition StringRef_empty (s : string) : bool :=
  match s with
  | EmptyString => true
  | String _ _ => false
  end.

(** ** ModuleDebugInfoPrinter.cpp *)

(** [static void printFile(raw_ostream &O, StringRef Filename,
                           StringRef Directory, unsigned Line = 0)].
    The stream is passed in and the stream after the call is returned. *)
Definition printFile (O : raw_ostream) (Filename Directory : string)
    (Line : N) : raw_ostream :=
  if StringRef_empty Filename then O
  else
    let O := (O << " from ")%os in
    let O := if negb (StringRef_empty Directory)
             then (O << Directory << "/")%os else O in
    let O := (O << Filename)%os in
    if negb (Line =? 0)%N then (O << ":" <<# Line)%os else O.

(** ** OrcLazyJIT.h: the collaborators

    The engine is a composition root: the mangler, the data layout, the
    compile-on-demand layer, the runtime override table, the constructor and
    destructor runners and the host's symbol table live in other files. *)

(** What is fixed by the target and the host process and left open here:
    the data-layout type with its [isDefault] test, the text
    [Mangler::getNameWithPrefix] writes for a name under a layout, the
    runtime-support routines the override table is built with, and the
    host's [RTDyldMemoryManager::getSymbolAddressInProcess]. *)
Class Target := {
  DataLayout : Type;
  isDefault : DataLayout → bool;
  getNameWithPrefix : DataLayout → string → string;
  RuntimeSupport : list (string * N);
  getSymbolAddressInProcess : string → N
}.

(** [orc::TargetAddress] is [uint64_t]; no arithmetic is done on it. *)
Definition TargetAddress := N.

(** Modelled from the spec: the flags of a Symbol, "exported/weak/etc."
    ([JITSymbolFlags] is declared in JITSymbol.h). *)
Record JITSymbolFlags := { Weak : bool; Exported : bool }.

Definition JITSymbolFlags_None : JITSymbolFlags :=
  {| Weak := false; Exported := false |}.
Definition JITSymbolFlags_Exported : JITSymbolFlags :=
  {| Weak := false; Exported := true |}.

(** Modelled from the spec: [RuntimeDyld::SymbolInfo], the Symbol
    "(address: integer | unresolved, flags)".  Unresolved is the null
    address, and the conversion to [bool] used by [if (auto Sym = ...)]
    tests the address. *)
Record SymbolInfo := { Address : TargetAddress; Flags : JITSymbolFlags }.

Definition SymbolInfo_nullptr : SymbolInfo :=
  {| Address := 0%N; Flags := JITSymbolFlags_None |}.

Definition SymbolInfo_bool (Sym : SymbolInfo) : bool :=
  negb (Address Sym =? 0)%N.

(** Modelled from the spec: [ModuleHandleT] (declared by
    CompileOnDemandLayer.h), the "opaque token identifying a unit once
    accepted into the COD layer", never reused: the units are numbered in the
    order they are added. *)
Definition ModuleHandleT := nat.

(** Modelled from the spec: what a compilation unit defines once mapped,
    under the decorated name the linker sees. *)
Record GlobalSymbol := {
  SymbolName : string;
  SymbolAddress : TargetAddress;
  SymbolFlags : JITSymbolFlags
}.

(** Modelled from the spec: [orc::JITSymbol], the result of a lookup in a
    layer: null, or a definition of a unit whose address is materialised
    when [getAddress] is called. *)
Inductive JITSymbol :=
| JITSymbol_nullptr
| JITSymbol_lazy (Owner : ModuleHandleT) (Def : GlobalSymbol).

Definition JITSymbol_bool (Sym : JITSymbol) : bool :=
  match Sym with
  | JITSymbol_nullptr => false
  | JITSymbol_lazy _ _ => true
  end.

Definition getFlags (Sym : JITSymbol) : JITSymbolFlags :=
  match Sym with
  | JITSymbol_nullptr => JITSymbolFlags_None
  | JITSymbol_lazy _ Def => SymbolFlags Def
  end.

(** A function of a unit ([llvm::Function]), as far as the engine looks at
    it: its name. *)
Record IRFunction := { getName : string }.

(** Modelled from the spec: an entry of the static constructor or
    destructor list of a unit ([orc::CtorDtorIterator::Element],
    ExecutionUtils.h). *)
Record Element := { Priority : N; Func : IRFunction }.

Section Collaborators.
Context `{Target}.

(** [TargetMachine], as far as the engine looks at it: [getDataLayout]. *)
Record TargetMachine := { TM_getDataLayout : DataLayout }.

(** [Mangler Mang(DL)]: the mangler keeps the layout it was built on. *)
Record Mangler := { Mangler_DL : DataLayout }.

(** [Mang.getNameWithPrefix(OS, Name)] writes the decorated name to [OS]. *)
Definition Mangler_getNameWithPrefix (Mang : Mangler) (OS : raw_ostream)
    (Name : string) : raw_ostream :=
  (OS << getNameWithPrefix (Mangler_DL Mang) Name)%os.

(** Modelled from the spec: a CompilationUnit ([llvm::Module]) as far as
    the engine looks at it: its data layout, its static constructors and
    destructors in the order [orc::getConstructors] and
    [orc::getDestructors] enumerate them, and the symbols it defines. *)
Record Module := {
  getDataLayout : DataLayout;
  getConstructors : list Element;
  getDestructors : list Element;
  Symbols : list GlobalSymbol
}.

Definition setDataLayout (M : Module) (DL : DataLayout) : Module :=
  {| getDataLayout := DL;
     getConstructors := getConstructors M;
     getDestructors := getDestructors M;
     Symbols := Symbols M |}.

(** Modelled from the spec: the compile-on-demand layer with the lazy
    emitting layer below it (CompileOnDemandLayer.h, LazyEmittingLayer.h):
    the module sets in insertion order, a handle being the position of its
    set, and the handles whose unit has been emitted. *)
Record CODLayerT := {
  ModuleSets : list (list Module);
  Emitted : gset ModuleHandleT
}.

Definition CODLayer_empty : CODLayerT :=
  {| ModuleSets := []; Emitted := ∅ |}.

(** Modelled from the spec: the symbol test of the layers' lookups,
    "exported-only visibility: internal/unexported symbols are not
    satisfiable as external references"; the name match is exact. *)
Definition provides (Name : string) (ExportedSymbolsOnly : bool)
    (Def : GlobalSymbol) : bool :=
  bool_decide (SymbolName Def = Name)
  && (negb ExportedSymbolsOnly || Exported (SymbolFlags Def)).

(** Modelled from the spec: lookup in one module set, first match wins. *)
Fixpoint ModuleSet_find (Ms : list Module) (Name : string)
    (ExportedSymbolsOnly : bool) : option GlobalSymbol :=
  match Ms with
  | [] => None
  | M :: Ms' =>
      match List.find (provides Name ExportedSymbolsOnly) (Symbols M) with
      | Some Def => Some Def
      | None => ModuleSet_find Ms' Name ExportedSymbolsOnly
      end
  end.

(** Modelled from the spec: [CODLayerT::findSymbol], "across all added
    units (first match wins; order across units is insertion order)"; [h] is
    the handle of the first set of [Sets]. *)
Fixpoint findSymbol_from (h : ModuleHandleT) (Sets : list (list Module))
    (Name : string) (ExportedSymbolsOnly : bool) : JITSymbol :=
  match Sets with
  | [] => JITSymbol_nullptr
  | Ms :: Sets' =>
      match ModuleSet_find Ms Name ExportedSymbolsOnly with
      | Some Def => JITSymbol_lazy h Def
      | None => findSymbol_from (S h) Sets' Name ExportedSymbolsOnly
      end
  end.

Definition CODLayer_findSymbol (L : CODLayerT) (Name : string)
    (ExportedSymbolsOnly : bool) : JITSymbol :=
  findSymbol_from 0 (ModuleSets L) Name ExportedSymbolsOnly.

(** Modelled from the spec: [CODLayerT::findSymbolIn], "same, scoped to
    one unit". *)
Definition CODLayer_findSymbolIn (L : CODLayerT) (h : ModuleHandleT)
    (Name : string) (ExportedSymbolsOnly : bool) : JITSymbol :=
  match ModuleSets L !! h with
  | Some Ms =>
      match ModuleSet_find Ms Name ExportedSymbolsOnly with
      | Some Def => JITSymbol_lazy h Def
      | None => JITSymbol_nullptr
      end
  | None => JITSymbol_nullptr
  end.

(** Modelled from the spec: [CODLayerT::addModuleSet], "submit unit to the
    COD layer; obtain handle": the set is appended and its position is the
    handle.  The resolver given with the set captures
    only [this], so it is the same function of the engine for every set
    (see [FallbackLookup]) and the layer need not keep it. *)
Definition CODLayer_addModuleSet (Ms : list Module) (L : CODLayerT)
    : ModuleHandleT * CODLayerT :=
  (length (ModuleSets L),
   {| ModuleSets := ModuleSets L ++ [Ms]; Emitted := Emitted L |}).

(** Modelled from the spec: [JITSymbol::getAddress], "on first symbol
    lookup against that unit, triggers a one-time full compile-and-link":
    the owner is emitted.  What the emission of the owner brings with it,
    the resolution of the owner's external references through the resolver,
    which may have further units emitted, is not modelled: [Emitted] records
    the owner only. *)
Definition JITSymbol_getAddress (Sym : JITSymbol) (L : CODLayerT)
    : TargetAddress * CODLayerT :=
  match Sym with
  | JITSymbol_nullptr => (0%N, L)
  | JITSymbol_lazy h Def =>
      (SymbolAddress Def,
       {| ModuleSets := ModuleSets L; Emitted := {[h]} ∪ Emitted L |})
  end.

(** Modelled from the spec: the runtime override registry
    ([orc::LocalCXXRuntimeOverrides], ExecutionUtils.h): the table
    "mangled name → native function pointer" and the cleanup routines
    registered through it that are still pending, each with its argument. *)
Record LocalCXXRuntimeOverrides := {
  Overrides : gmap string TargetAddress;
  Pending : list (TargetAddress * TargetAddress)
}.

(** Modelled from the spec: the constructor of the registry, given the
    engine's mangling function: the routines are "globally registered once
    at Engine construction", under their mangled names. *)
Definition LocalCXXRuntimeOverrides_new (Mangle : string → string)
    : LocalCXXRuntimeOverrides :=
  {| Overrides :=
       foldl (λ m e, <[Mangle e.1 := e.2]> m) ∅ RuntimeSupport;
     Pending := [] |}.

(** Modelled from the spec: [searchOverrides], "exact name match". *)
Definition searchOverrides (O : LocalCXXRuntimeOverrides) (Name : string)
    : SymbolInfo :=
  match Overrides O !! Name with
  | Some Addr => {| Address := Addr; Flags := JITSymbolFlags_Exported |}
  | None => SymbolInfo_nullptr
  end.

(** Modelled from the spec: [orc::CtorDtorRunner<CODLayerT>]
    (ExecutionUtils.h), "an ordered sequence of mangled function names plus
    the ModuleHandle they belong to". *)
Record CtorDtorRunner := {
  CtorDtorNames : list string;
  CtorDtorRunner_H : ModuleHandleT
}.

(** ** The engine *)

(** The data members of [OrcLazyJIT].  The layers below the COD layer and
    the callback manager are part of [CODLayerT] above. *)
Record OrcLazyJIT := {
  TM : TargetMachine;
  Mang : Mangler;
  CODLayer : CODLayerT;
  CXXRuntimeOverrides : LocalCXXRuntimeOverrides;
  IRStaticDestructorRunners : list CtorDtorRunner
}.

(** Native routines the engine has had run, oldest first.  What the
    routines do themselves is outside the model. *)
Inductive Event :=
| RunViaLayer (Runner : CtorDtorRunner)
| RunDestructors (Cleanups : list (TargetAddress * TargetAddress)).

Record World := { JIT : OrcLazyJIT; Ran : list Event }.

Definition JITM (A : Type) : Type := World → A * World.

Global Instance JITM_ret : MRet JITM := λ A a w, (a, w).

Global Instance JITM_bind : MBind JITM :=
  λ A B k m w, let '(a, w') := m w in k a w'.

Definition this : JITM OrcLazyJIT := λ w, (JIT w, w).

Definition log (e : Event) : JITM unit :=
  λ w, (tt, {| JIT := JIT w; Ran := Ran w ++ [e] |}).

(** [v.push_back(x)] *)
Definition push_back {A} (v : list A) (x : A) : list A := v ++ [x].

Definition set_CODLayer (L : CODLayerT) : JITM unit :=
  λ w, (tt, {| JIT := {| TM := TM (JIT w); Mang := Mang (JIT w);
                         CODLayer := L;
                         CXXRuntimeOverrides := CXXRuntimeOverrides (JIT w);
                         IRStaticDestructorRunners :=
                           IRStaticDestructorRunners (JIT w) |};
               Ran := Ran w |}).

(** A call into the layer member [CODLayer]. *)
Definition via_CODLayer {A} (call : CODLayerT → A * CODLayerT) : JITM A :=
  E ← this;
  let '(a, L) := call (CODLayer E) in
  set_CODLayer L;;
  mret a.

Definition set_CXXRuntimeOverrides (O : LocalCXXRuntimeOverrides)
    : JITM unit :=
  λ w, (tt, {| JIT := {| TM := TM (JIT w); Mang := Mang (JIT w);
                         CODLayer := CODLayer (JIT w);
                         CXXRuntimeOverrides := O;
                         IRStaticDestructorRunners :=
                           IRStaticDestructorRunners (JIT w) |};
               Ran := Ran w |}).

Definition set_IRStaticDestructorRunners (Rs : list CtorDtorRunner)
    : JITM unit :=
  λ w, (tt, {| JIT := {| TM := TM (JIT w); Mang := Mang (JIT w);
                         CODLayer := CODLayer (JIT w);
                         CXXRuntimeOverrides := CXXRuntimeOverrides (JIT w);
                         IRStaticDestructorRunners := Rs |};
               Ran := Ran w |}).

End Collaborators.

Section Engine.
Context `{Target}.

(** [for (auto &x : xs) body(x);] *)
Fixpoint for_each {A} (xs : list A) (body : A → JITM unit) : JITM unit :=
  match xs with
  | [] => mret tt
  | x :: xs' => body x;; for_each xs' body
  end.

(** Modelled from the spec: [Runner.runViaLayer(CODLayer)]
    (ExecutionUtils.h); "run" is recorded as one event for the runner.  The
    lookup of the names and what the routines do when they are invoked (the
    emission of units, the registration of cleanup routines) are not
    modelled. *)
Definition runViaLayer (Runner : CtorDtorRunner) : JITM unit :=
  log (RunViaLayer Runner).

(** Modelled from the spec: [CXXRuntimeOverrides.runDestructors()]
    (ExecutionUtils.h), "run any pending override-registered cleanup
    routines"; none is pending afterwards. *)
Definition runDestructors : JITM unit :=
  E ← this;
  log (RunDestructors (Pending (CXXRuntimeOverrides E)));;
  set_CXXRuntimeOverrides
    {| Overrides := Overrides (CXXRuntimeOverrides E); Pending := [] |}.

(** [std::string mangle(const std::string &Name)] *)
Definition mangle (E : OrcLazyJIT) (Name : string) : string :=
  let MangledName : raw_ostream := EmptyString in
  let MangledName := Mangler_getNameWithPrefix (Mang E) MangledName Name in
  MangledName.

(** The constructor: [Mang] is built on the target machine's layout, the
    layers start empty, the override table is built with [mangle], and no
    destructor runner is recorded. *)
Definition OrcLazyJIT_new (TM0 : TargetMachine) : OrcLazyJIT :=
  let E := {| TM := TM0;
              Mang := {| Mangler_DL := TM_getDataLayout TM0 |};
              CODLayer := CODLayer_empty;
              CXXRuntimeOverrides := {| Overrides := ∅; Pending := [] |};
              IRStaticDestructorRunners := [] |} in
  {| TM := TM E; Mang := Mang E; CODLayer := CODLayer E;
     CXXRuntimeOverrides := LocalCXXRuntimeOverrides_new (λ Str, mangle E Str);
     IRStaticDestructorRunners := [] |}.

(** [~OrcLazyJIT()] *)
Definition OrcLazyJIT_destroy : JITM unit :=
  (* Run any destructors registered with __cxa_atexit. *)
  runDestructors;;
  (* Run any IR destructors. *)
  E ← this;
  for_each (IRStaticDestructorRunners E)
    (λ DtorRunner, runViaLayer DtorRunner).

(** The lambda [FallbackLookup] of [addModule].  It captures [this] only. *)
Definition FallbackLookup (Name : string) : JITM SymbolInfo :=
  E ← this;
  let Sym := CODLayer_findSymbol (CODLayer E) Name true in
  if JITSymbol_bool Sym then
    Addr ← via_CODLayer (JITSymbol_getAddress Sym);
    mret {| Address := Addr; Flags := getFlags Sym |}
  else
    let Sym := searchOverrides (CXXRuntimeOverrides E) Name in
    if SymbolInfo_bool Sym then mret Sym
    else
      let Addr := getSymbolAddressInProcess Name in
      if negb (Addr =? 0)%N then
        mret {| Address := Addr; Flags := JITSymbolFlags_Exported |}
      else mret SymbolInfo_nullptr.

(** [ModuleHandleT addModule(std::unique_ptr<Module> M)] *)
Definition addModule (M : Module) : JITM ModuleHandleT :=
  E ← this;
  (* Attach a data-layout if one isn't already present. *)
  let M := if isDefault (getDataLayout M)
           then setDataLayout M (TM_getDataLayout (TM E)) else M in
  (* Record the static constructors and destructors. *)
  let CtorNames :=
    foldl (λ CtorNames Ctor,
             push_back CtorNames (mangle E (getName (Func Ctor))))
          [] (getConstructors M) in
  let DtorNames :=
    foldl (λ DtorNames Dtor,
             push_back DtorNames (mangle E (getName (Func Dtor))))
          [] (getDestructors M) in
  (* Add the module to the JIT. *)
  let MSet := push_back [] M in
  h ← via_CODLayer (CODLayer_addModuleSet MSet);
  (* Run the static constructors, and save the static destructor runner for
     execution when the JIT is torn down. *)
  let CtorRunner := {| CtorDtorNames := CtorNames; CtorDtorRunner_H := h |} in
  runViaLayer CtorRunner;;
  E' ← this;
  set_IRStaticDestructorRunners
    (push_back (IRStaticDestructorRunners E')
       {| CtorDtorNames := DtorNames; CtorDtorRunner_H := h |});;
  mret h.

(** [orc::JITSymbol findSymbol(const std::string &Name)] *)
Definition findSymbol (Name : string) : JITM JITSymbol :=
  E ← this;
  mret (CODLayer_findSymbol (CODLayer E) (mangle E Name) true).

(** [orc::JITSymbol findSymbolIn(ModuleHandleT H, const std::string &Name)] *)
Definition findSymbolIn (h : ModuleHandleT) (Name : string)
    : JITM JITSymbol :=
  E ← this;
  mret (CODLayer_findSymbolIn (CODLayer E) h (mangle E Name) true).

End Engine.

(** ** Drivers: what a client does with an engine between construction and
    teardown *)

Section Lifetime.
Context `{Target}.

Inductive Request :=
| AddModule (M : Module)
| FindSymbol (Name : string)
| FindSymbolIn (h : ModuleHandleT) (Name : string)
| Resolve (Name : string).

Definition serve (r : Request) : JITM unit :=
  match r with
  | AddModule M => addModule M;; mret tt
  | FindSymbol Name => findSymbol Name;; mret tt
  | FindSymbolIn h Name => findSymbolIn h Name;; mret tt
  | Resolve Name => FallbackLookup Name;; mret tt
  end.

(** A freshly constructed engine that has run nothing yet. *)
Definition boot (TM0 : TargetMachine) : World :=
  {| JIT := OrcLazyJIT_new TM0; Ran := [] |}.

(** The engine after the units [Ms] have been added in this order. *)
Definition added (TM0 : TargetMachine) (Ms : list Module) : World :=
  (for_each Ms (λ M, addModule M;; mret tt) (boot TM0)).2.

(** What teardown of [w] runs, oldest first. *)
Definition teardown_log (w : World) : list Event :=
  drop (length (Ran w)) (Ran (OrcLazyJIT_destroy w).2).

(** The destructor runners among the events, in the order they ran. *)
Definition runners_run (evs : list Event) : list CtorDtorRunner :=
  omap (λ e, match e with RunViaLayer R => Some R | _ => None end) evs.

(** "Cleanup routines run only after every destructor runner has run":
    in the events no runner comes after a run of the cleanup routines. *)
Definition cleanups_last (evs : list Event) : Prop :=
  ∀ i j Cleanups Runner,
    evs !! i = Some (RunDestructors Cleanups) →
    evs !! j = Some (RunViaLayer Runner) →
    j < i.

(** The unit [addModule] hands to the layer for [M]. *)
Definition submitted (E : OrcLazyJIT) (M : Module) : Module :=
  if isDefault (getDataLayout M)
  then setDataLayout M (TM_getDataLayout (TM E)) else M.

(** The runner [addModule] records at handle [h] for the destructors of
    [M]. *)
Definition dtor_runner (E : OrcLazyJIT) (h : ModuleHandleT) (M : Module)
    : CtorDtorRunner :=
  {| CtorDtorNames :=
       (λ Dtor, mangle E (getName (Func Dtor))) <$> getDestructors M;
     CtorDtorRunner_H := h |}.

Definition ctor_runner (E : OrcLazyJIT) (h : ModuleHandleT) (M : Module)
    : CtorDtorRunner :=
  {| CtorDtorNames :=
       (λ Ctor, mangle E (getName (Func Ctor))) <$> getConstructors M;
     CtorDtorRunner_H := h |}.

(** ** The fallback chain in the words of its description

    "For a mangled name, try in order, stopping at first success":
    each tier either succeeds with a symbol or fails. *)

Definition tier_units (E : OrcLazyJIT) (Name : string) : option SymbolInfo :=
  match CODLayer_findSymbol (CODLayer E) Name true with
  | JITSymbol_lazy _ Def =>
      Some {| Address := SymbolAddress Def; Flags := SymbolFlags Def |}
  | JITSymbol_nullptr => None
  end.

Definition tier_overrides (E : OrcLazyJIT) (Name : string)
    : option SymbolInfo :=
  match Overrides (CXXRuntimeOverrides E) !! Name with
  | Some Addr =>
      if bool_decide (Addr = 0%N) then None
      else Some {| Address := Addr; Flags := JITSymbolFlags_Exported |}
  | None => None
  end.

Definition tier_host (Name : string) : option SymbolInfo :=
  let Addr := getSymbolAddressInProcess Name in
  if bool_decide (Addr = 0%N) then None
  else Some {| Address := Addr; Flags := JITSymbolFlags_Exported |}.

Fixpoint first_success (tiers : list (option SymbolInfo)) : SymbolInfo :=
  match tiers with
  | [] => SymbolInfo_nullptr
  | Some Sym :: _ => Sym
  | None :: tiers' => first_success tiers'
  end.

(** Unit [h] of the layer defines [Def]. *)
Definition defines (L : CODLayerT) (h : ModuleHandleT) (Def : GlobalSymbol)
    : Prop :=
  ∃ Ms M, ModuleSets L !! h = Some Ms ∧ M ∈ Ms ∧ Def ∈ Symbols M.

(** Some added unit exports a symbol under the name [Name]. *)
Definition exports (L : CODLayerT) (Name : string) : Prop :=
  ∃ h Def, defines L h Def ∧ SymbolName Def = Name
           ∧ Exported (SymbolFlags Def) = true.

End Lifetime.

(** ** A concrete target, for running the engine on examples

    A Mach-O style target: the layout is its description string, the default
    layout is the empty string, and names are decorated with an underscore
    unless the layout asks for ELF mangling. *)

Definition ExampleTarget : Target :=
  {| DataLayout := string;
     isDefault := StringRef_empty;
     getNameWithPrefix := λ DL Name,
       if bool_decide (DL = "e-m:e") then Name else "_" +:+ Name;
     RuntimeSupport := [("__cxa_atexit", 4096%N); ("__dso_handle", 4104%N)];
     getSymbolAddressInProcess := λ Name,
       if bool_decide (Name = "_puts") then 8192%N
       else if bool_decide (Name = "___cxa_atexit") then 8200%N
       else 0%N |}.

Section ExampleData.
Local Existing Instance ExampleTarget.

Definition darwin : TargetMachine :=
  {| TM_getDataLayout := "e-m:o-i64:64-f80:128-n8:16:32:64-S128" |}.

Definition global (Name : string) (Addr : TargetAddress) (Exp : bool)
    : GlobalSymbol :=
  {| SymbolName := Name; SymbolAddress := Addr;
     SymbolFlags := {| Weak := false; Exported := Exp |} |}.

Definition entry (Name : string) : Element :=
  {| Priority := 65535%N; Func := {| getName := Name |} |}.

(** Three units.  A has no data layout; B and C carry their own.  A and B
    both export [add]; B keeps [helper] internal; C exports a routine
    under the name the registry uses for [__cxa_atexit]. *)
Definition unit_A : Module :=
  {| getDataLayout := EmptyString;
     getConstructors := [entry "ctorA1"; entry "ctorA2"];
     getDestructors := [entry "dtorA"];
     Symbols := [global "_add" 4112%N true; global "_ctorA1" 4128%N false;
                 global "_ctorA2" 4144%N false; global "_dtorA" 4160%N false]
  |}.

Definition unit_B : Module :=
  {| getDataLayout := "e-m:o";
     getConstructors := [];
     getDestructors := [entry "dtorB"];
     Symbols := [global "_main" 8208%N true; global "_add" 8224%N true;
                 global "_helper" 8240%N false; global "_dtorB" 8256%N false]
  |}.

Definition unit_C : Module :=
  {| getDataLayout := "e-m:o";
     getConstructors := [entry "ctorC"];
     getDestructors := [entry "dtorC1"; entry "dtorC2"];
     Symbols := [global "___cxa_atexit" 12304%N true;
                 global "_ctorC" 12320%N false;
                 global "_dtorC1" 12336%N false;
                 global "_dtorC2" 12352%N false] |}.

(** The engine with A and B added, and with A, B and C added. *)
Definition engine_AB : World := added darwin [unit_A; unit_B].
Definition engine_ABC : World := added darwin [unit_A; unit_B; unit_C].

(** [engine_AB] after a constructor has registered a cleanup routine
    (routine at 8240, argument 0) with the override registry. *)
Definition engine_AB_pending : World :=
  (set_CXXRuntimeOverrides
     {| Overrides := Overrides (CXXRuntimeOverrides (JIT engine_AB));
        Pending := [(8240%N, 0%N)] |} engine_AB).2.

Definition runner_A : CtorDtorRunner :=
  {| CtorDtorNames := ["_dtorA"]; CtorDtorRunner_H := 0 |}.
Definition runner_B : CtorDtorRunner :=
  {| CtorDtorNames := ["_dtorB"]; CtorDtorRunner_H := 1 |}.
Definition runner_C : CtorDtorRunner :=
  {| CtorDtorNames := ["_dtorC1"; "_dtorC2"]; CtorDtorRunner_H := 2 |}.

End ExampleData.

(** ** ModuleDebugInfoPrinter.cpp: [print]

    [print] walks the four lists of the pass's [DebugInfoFinder] and writes
    one record after the other to the stream. *)

(** The DWARF name tables [LanguageString], [dwarf::AttributeEncodingString]
    and [dwarf::TagString] (Dwarf.cpp), left open: each returns a null
    pointer for a value it has no name for. *)
Class DwarfNames := {
  LanguageString : N → option string;
  AttributeEncodingString : N → option string;
  TagString : N → option string
}.

(** The descriptors the finder hands out (DebugInfo.h), as far as [print]
    looks at them: the values of the accessors it calls.  [getIdentifier]
    returns a null pointer when the type has no identifier. *)
Record DICompileUnit := {
  CU_getLanguage : N;
  CU_getFilename : string;
  CU_getDirectory : string
}.

Record DISubprogram := {
  SP_getName : string;
  SP_getFilename : string;
  SP_getDirectory : string;
  SP_getLineNumber : N;
  SP_getLinkageName : string
}.

Record DIGlobalVariable := {
  GV_getName : string;
  GV_getFilename : string;
  GV_getDirectory : string;
  GV_getLineNumber : N;
  GV_getLinkageName : string
}.

Record DIType := {
  T_getName : string;
  T_getFilename : string;
  T_getDirectory : string;
  T_getLineNumber : N;
  T_isBasicType : bool;
  T_getEncoding : N;
  T_getTag : N;
  T_isCompositeType : bool;
  T_getIdentifier : option string
}.

Record DebugInfoFinder := {
  compile_units : list DICompileUnit;
  subprograms : list DISubprogram;
  global_variables : list DIGlobalVariable;
  types : list DIType
}.

(** The character of code 10, written by [O << '\n'], as a character and
    as a text. *)
Definition newline_char : Ascii.ascii :=
  Ascii.Ascii false true false true false false false false.

Definition newline : string := String newline_char EmptyString.

Section Printer.
Context `{DwarfNames}.

(** The body of [for (DICompileUnit CU : Finder.compile_units())]. *)
Definition print_compile_unit (O : raw_ostream) (CU : DICompileUnit)
    : raw_ostream :=
  let O := (O << "Compile unit: ")%os in
  let O := match LanguageString (CU_getLanguage CU) with
           | Some Lang => (O << Lang)%os
           | None =>
               (O << "unknown-language(" <<# CU_getLanguage CU << ")")%os
           end in
  let O := printFile O (CU_getFilename CU) (CU_getDirectory CU) 0 in
  (O << newline)%os.

(** The body of [for (DISubprogram S : Finder.subprograms())]. *)
Definition print_subprogram (O : raw_ostream) (SP : DISubprogram)
    : raw_ostream :=
  let O := (O << "Subprogram: " << SP_getName SP)%os in
  let O := printFile O (SP_getFilename SP) (SP_getDirectory SP)
             (SP_getLineNumber SP) in
  let O := if negb (StringRef_empty (SP_getLinkageName SP))
           then (O << " ('" << SP_getLinkageName SP << "')")%os else O in
  (O << newline)%os.

(** The body of [for (DIGlobalVariable GV : Finder.global_variables())]. *)
Definition print_global_variable (O : raw_ostream) (GV : DIGlobalVariable)
    : raw_ostream :=
  let O := (O << "Global variable: " << GV_getName GV)%os in
  let O := printFile O (GV_getFilename GV) (GV_getDirectory GV)
             (GV_getLineNumber GV) in
  let O := if negb (StringRef_empty (GV_getLinkageName GV))
           then (O << " ('" << GV_getLinkageName GV << "')")%os else O in
  (O << newline)%os.

(** The body of [for (DIType T : Finder.types())]. *)
Definition print_type (O : raw_ostream) (T : DIType) : raw_ostream :=
  let O := (O << "Type:")%os in
  let O := if negb (StringRef_empty (T_getName T))
           then (O << " " << T_getName T)%os else O in
  let O := printFile O (T_getFilename T) (T_getDirectory T)
             (T_getLineNumber T) in
  let O :=
    if T_isBasicType T then
      let O := (O << " ")%os in
      match AttributeEncodingString (T_getEncoding T) with
      | Some Encoding => (O << Encoding)%os
      | None => (O << "unknown-encoding(" <<# T_getEncoding T << ")")%os
      end
    else
      let O := (O << " ")%os in
      match TagString (T_getTag T) with
      | Some Tag => (O << Tag)%os
      | None => (O << "unknown-tag(" <<# T_getTag T << ")")%os
      end in
  let O :=
    if T_isCompositeType T then
      match T_getIdentifier T with
      | Some Str => (O << " (identifier: '" << Str << "')")%os
      | None => O
      end
    else O in
  (O << newline)%os.

(** [void ModuleDebugInfoPrinter::print(raw_ostream &O, const Module *M)
    const]; the module argument is not used. *)
Definition print (Finder : DebugInfoFinder) (O : raw_ostream) : raw_ostream :=
  let O := foldl print_compile_unit O (compile_units Finder) in
  let O := foldl print_subprogram O (subprograms Finder) in
  let O := foldl print_global_variable O (global_variables Finder) in
  foldl print_type O (types Finder).

(** What [printFile] and the loop bodies write to a stream that is empty. *)
Definition location_text (Filename Directory : string) (Line : N) : string :=
  printFile EmptyString Filename Directory Line.

(** The lines of the records, in the order of the four loops. *)
Definition record_lines (Finder : DebugInfoFinder) : list string :=
  (print_compile_unit EmptyString <$> compile_units Finder)
  ++ (print_subprogram EmptyString <$> subprograms Finder)
  ++ (print_global_variable EmptyString <$> global_variables Finder)
  ++ (print_type EmptyString <$> types Finder).

(** The texts of a list one after the other. *)
Definition concat_text (ls : list string) : string :=
  foldr String.append EmptyString ls.

(** The number of records the finder holds. *)
Definition records (Finder : DebugInfoFinder) : nat :=
  length (compile_units Finder) + length (subprograms Finder)
  + length (global_variables Finder) + length (types Finder).

End Printer.

(** The number of newline characters in a text. *)
Fixpoint newlines (s : string) : nat :=
  match s with
  | EmptyString => 0
  | String c s' =>
      (if bool_decide (c = newline_char) then 1 else 0) + newlines s'
  end.

(** No field of a record of the finder holds a newline. *)
Definition plain_option (o : option string) : Prop :=
  ∀ s, o = Some s → newlines s = 0.

Definition plain_finder (Finder : DebugInfoFinder) : Prop :=
  (∀ CU, CU ∈ compile_units Finder →
     newlines (CU_getFilename CU) = 0 ∧ newlines (CU_getDirectory CU) = 0)
  ∧ (∀ SP, SP ∈ subprograms Finder →
       newlines (SP_getName SP) = 0 ∧ newlines (SP_getFilename SP) = 0
       ∧ newlines (SP_getDirectory SP) = 0
       ∧ newlines (SP_getLinkageName SP) = 0)
  ∧ (∀ GV, GV ∈ global_variables Finder →
       newlines (GV_getName GV) = 0 ∧ newlines (GV_getFilename GV) = 0
       ∧ newlines (GV_getDirectory GV) = 0
       ∧ newlines (GV_getLinkageName GV) = 0)
  ∧ (∀ T, T ∈ types Finder →
       newlines (T_getName T) = 0 ∧ newlines (T_getFilename T) = 0
       ∧ newlines (T_getDirectory T) = 0
       ∧ plain_option (T_getIdentifier T)).

(** No name of the DWARF tables holds a newline. *)
Definition plain_names `{DwarfNames} : Prop :=
  ∀ n, plain_option (LanguageString n)
       ∧ plain_option (AttributeEncodingString n)
       ∧ plain_option (TagString n).

(** ** OrcLazyJIT.h: [fromTargetAddress]

    [reinterpret_cast<PtrTy>(static_cast<uintptr_t>(Addr))]: the 64-bit
    address is converted to the host's pointer-sized unsigned integer, which
    keeps its value modulo two to the pointer width, and a pointer is that
    integer.  [ptr_bits] is the width of [uintptr_t] on the host. *)
Definition fromTargetAddress (ptr_bits : N) (Addr : TargetAddress) : N :=
  (Addr mod 2 ^ ptr_bits)%N.

(** ** More about the life of an engine *)

Section Reachable.
Context `{Target}.

(** The engine constructed on [TM0] after it has served the requests [rs],
    oldest first. *)
Definition after (TM0 : TargetMachine) (rs : list Request) : World :=
  (for_each rs serve (boot TM0)).2.

(** The units among the requests, in the order they were added. *)
Definition added_units (rs : list Request) : list Module :=
  omap (λ r, match r with AddModule M => Some M | _ => None end) rs.

(** The world in which unit [h] has been emitted too. *)
Definition emit (h : ModuleHandleT) (w : World) : World :=
  {| JIT := {| TM := TM (JIT w); Mang := Mang (JIT w);
               CODLayer :=
                 {| ModuleSets := ModuleSets (CODLayer (JIT w));
                    Emitted := {[h]} ∪ Emitted (CODLayer (JIT w)) |};
               CXXRuntimeOverrides := CXXRuntimeOverrides (JIT w);
               IRStaticDestructorRunners :=
                 IRStaticDestructorRunners (JIT w) |};
     Ran := Ran w |}.

(** The bookkeeping of the engine agrees with its layer: one destructor
    runner per module set, the runner at position [i] tagged with handle
    [i], one unit per module set, and only handles of added units emitted. *)
Definition consistent (w : World) : Prop :=
  length (IRStaticDestructorRunners (JIT w))
  = length (ModuleSets (CODLayer (JIT w)))
  ∧ (∀ i Runner, IRStaticDestructorRunners (JIT w) !! i = Some Runner →
                 CtorDtorRunner_H Runner = i)
  ∧ (∀ Ms, Ms ∈ ModuleSets (CODLayer (JIT w)) → length Ms = 1)
  ∧ (∀ h, h ∈ Emitted (CODLayer (JIT w)) →
          h < length (ModuleSets (CODLayer (JIT w)))).

(** Every unit the layer holds carries a data layout. *)
Definition all_have_layout (w : World) : Prop :=
  ∀ Ms M, Ms ∈ ModuleSets (CODLayer (JIT w)) → M ∈ Ms →
          isDefault (getDataLayout M) = false.

End Reachable.

(** ** Example debug info *)

(** A few names of the DWARF tables. *)
Definition ExampleNames : DwarfNames :=
  {| LanguageString := λ n,
       if bool_decide (n = 12%N) then Some "DW_LANG_C99" else None;
     AttributeEncodingString := λ n,
       if bool_decide (n = 5%N) then Some "DW_ATE_signed" else None;
     TagString := λ n,
       if bool_decide (n = 19%N) then Some "DW_TAG_structure_type"
       else if bool_decide (n = 15%N) then Some "DW_TAG_pointer_type"
       else None |}.

(** The debug info of a small C file: one compile unit, one function, one
    variable and three types, the last with a tag the tables do not know. *)
Definition example_finder : DebugInfoFinder :=
  {| compile_units :=
       [{| CU_getLanguage := 12; CU_getFilename := "a.c";
           CU_getDirectory := "/src" |}];
     subprograms :=
       [{| SP_getName := "main"; SP_getFilename := "a.c";
           SP_getDirectory := "/src"; SP_getLineNumber := 3;
           SP_getLinkageName := EmptyString |}];
     global_variables :=
       [{| GV_getName := "counter"; GV_getFilename := "a.c";
           GV_getDirectory := EmptyString; GV_getLineNumber := 1;
           GV_getLinkageName := "_ZL7counter" |}];
     types :=
       [{| T_getName := "int"; T_getFilename := EmptyString;
           T_getDirectory := EmptyString; T_getLineNumber := 0;
           T_isBasicType := true; T_getEncoding := 5; T_getTag := 36;
           T_isCompositeType := false; T_getIdentifier := None |};
        {| T_getName := "S"; T_getFilename := "a.c";
           T_getDirectory := "/src"; T_getLineNumber := 2;
           T_isBasicType := false; T_getEncoding := 0; T_getTag := 19;
           T_isCompositeType := true; T_getIdentifier := Some "_ZTS1S" |};
        {| T_getName := EmptyString; T_getFilename := EmptyString;
           T_getDirectory := EmptyString; T_getLineNumber := 0;
           T_isBasicType := false; T_getEncoding := 0; T_getTag := 4660;
           T_isCompositeType := false; T_getIdentifier := None |}] |}.

(** * Properties *)

(** ** Strings and streams *)

Lemma StringRef_empty_decide s :
  StringRef_empty s = bool_decide (s = EmptyString).
Proof. by destruct s. Qed.

Lemma StringRef_empty_false s :
  s ≠ EmptyString → StringRef_empty s = false.
Proof. by destruct s. Qed.

Lemma append_nil_l (s : string) : EmptyString +:+ s = s.
Proof. reflexivity. Qed.

Lemma append_cons (c : Ascii.ascii) (a b : string) :
  String c a +:+ b = String c (a +:+ b).
Proof. reflexivity. Qed.

Lemma append_nil_r (s : string) : s +:+ EmptyString = s.
Proof.
  induction s as [|c s IH]; [done|]. by rewrite append_cons, IH.
Qed.

Lemma append_assoc (a b c : string) : (a +:+ b) +:+ c = a +:+ (b +:+ c).
Proof.
  induction a as [|x a IH]; [done|]. by rewrite !append_cons, IH.
Qed.

Lemma N_eqb_decide (n m : N) : (n =? m)%N = bool_decide (n = m).
Proof.
  destruct (N.eqb_spec n m) as [->|Hne].
  - by rewrite bool_decide_eq_true_2.
  - by rewrite bool_decide_eq_false_2.
Qed.

(** ** The debug-info printer *)

Example printFile_full :
  printFile "Subprogram: f" "a.c" "/src" 12 = "Subprogram: f from /src/a.c:12".
Proof. reflexivity. Qed.

Example printFile_no_directory_no_line :
  printFile "Compile unit: C" "a.c" EmptyString 0 = "Compile unit: C from a.c".
Proof. reflexivity. Qed.

Example printFile_no_file :
  printFile "Type: int" EmptyString "/src" 7 = "Type: int".
Proof. reflexivity. Qed.

(** C10. [printFile] leaves the stream as it is when the file name is empty.
    For a non-empty file name it appends " from ", then the directory and a
    "/" exactly when the directory is non-empty, then the file name, then
    ":" and the line number in decimal exactly when the line is not zero. *)
Theorem printFile_emits (O : raw_ostream) (Filename Directory : string)
    (Line : N) :
  printFile O Filename Directory Line =
    if bool_decide (Filename = EmptyString) then O
    else O +:+ " from "
           +:+ (if bool_decide (Directory = EmptyString) then EmptyString
                else Directory +:+ "/")
           +:+ Filename
           +:+ (if bool_decide (Line = 0%N) then EmptyString
                else ":" +:+ pretty Line).
Proof.
  unfold printFile, write, write_unsigned.
  rewrite !StringRef_empty_decide, N_eqb_decide.
  repeat case_bool_decide; simpl negb; cbv iota;
    rewrite ?append_assoc, ?append_nil_l, ?append_nil_r; done.
Qed.

(** ** Lookup in the compile-on-demand layer *)

Section LayerLookup.
Context `{Target}.

Lemma provides_spec Name EO Def :
  provides Name EO Def = true ↔
    SymbolName Def = Name ∧ (EO = true → Exported (SymbolFlags Def) = true).
Proof.
  unfold provides.
  rewrite andb_true_iff, bool_decide_eq_true, orb_true_iff, negb_true_iff.
  destruct EO; intuition congruence.
Qed.

Lemma ModuleSet_find_Some Ms Name EO Def :
  ModuleSet_find Ms Name EO = Some Def →
  ∃ M, M ∈ Ms ∧ Def ∈ Symbols M ∧ provides Name EO Def = true.
Proof.
  induction Ms as [|M Ms IH]; simpl; [done|].
  destruct (find _ (Symbols M)) as [Def'|] eqn:Hfind.
  - intros [= ->]. apply find_some in Hfind as [Hin Hp].
    exists M. rewrite <- list_elem_of_In in Hin.
    split_and!; [apply list_elem_of_here | done | done].
  - intros Hrest. destruct (IH Hrest) as (M' & ? & ? & ?).
    exists M'. split_and!; [by apply list_elem_of_further | done | done].
Qed.

Lemma ModuleSet_find_None Ms Name EO :
  ModuleSet_find Ms Name EO = None ↔
    ∀ M Def, M ∈ Ms → Def ∈ Symbols M → provides Name EO Def = false.
Proof.
  induction Ms as [|M Ms IH]; simpl.
  - split; [|done]. intros _ M Def HM. by apply elem_of_nil in HM.
  - destruct (find _ (Symbols M)) as [Def'|] eqn:Hfind.
    + split; [done|]. intros Hall.
      apply find_some in Hfind as [Hin Hp].
      rewrite <- list_elem_of_In in Hin.
      rewrite (Hall M Def') in Hp; [done | apply list_elem_of_here | done].
    + rewrite IH. split.
      * intros Hall M' Def [->|HM']%elem_of_cons HDef; [|by eapply Hall].
        apply (find_none _ _ Hfind). by rewrite <- list_elem_of_In.
      * intros Hall M' Def HM'. apply Hall. by apply list_elem_of_further.
Qed.

(** The first set, in insertion order, that has a match answers. *)
Lemma findSymbol_from_lazy h0 Sets Name EO h Def :
  findSymbol_from h0 Sets Name EO = JITSymbol_lazy h Def →
  ∃ i Ms, h = h0 + i ∧ Sets !! i = Some Ms
          ∧ ModuleSet_find Ms Name EO = Some Def
          ∧ ∀ j Ms', j < i → Sets !! j = Some Ms' →
                     ModuleSet_find Ms' Name EO = None.
Proof.
  revert h0. induction Sets as [|Ms Sets IH]; intros h0; simpl; [done|].
  destruct (ModuleSet_find Ms Name EO) as [Def'|] eqn:Hfind.
  - intros [= <- <-]. exists 0, Ms. split_and!; [lia | done | done |].
    intros j Ms' Hj. lia.
  - intros Hrest. destruct (IH _ Hrest) as (i & Ms1 & -> & Hi & Hf & Hfirst).
    exists (S i), Ms1. split_and!; [lia | done | done |].
    intros [|j] Ms' Hj; simpl.
    + by intros [= <-].
    + apply Hfirst. lia.
Qed.

Lemma findSymbol_from_nullptr h0 Sets Name EO :
  findSymbol_from h0 Sets Name EO = JITSymbol_nullptr ↔
    ∀ Ms, Ms ∈ Sets → ModuleSet_find Ms Name EO = None.
Proof.
  revert h0. induction Sets as [|Ms Sets IH]; intros h0; simpl.
  - split; [|done]. intros _ Ms HMs. by apply elem_of_nil in HMs.
  - destruct (ModuleSet_find Ms Name EO) as [Def'|] eqn:Hfind.
    + split; [done|]. intros Hall.
      rewrite Hall in Hfind; [done | apply list_elem_of_here].
    + rewrite IH. split.
      * intros Hall Ms' [->|?]%elem_of_cons; auto.
      * intros Hall Ms' ?. apply Hall. by apply list_elem_of_further.
Qed.

Lemma CODLayer_findSymbol_lazy L Name EO h Def :
  CODLayer_findSymbol L Name EO = JITSymbol_lazy h Def →
  defines L h Def ∧ provides Name EO Def = true.
Proof.
  unfold CODLayer_findSymbol.
  intros (i & Ms & -> & Hi & Hf & _)%findSymbol_from_lazy.
  apply ModuleSet_find_Some in Hf as (M & ? & ? & ?).
  split; [|done]. by exists Ms, M.
Qed.

Lemma CODLayer_findSymbol_nullptr L Name :
  CODLayer_findSymbol L Name true = JITSymbol_nullptr ↔ ¬ exports L Name.
Proof.
  unfold CODLayer_findSymbol. rewrite findSymbol_from_nullptr. split.
  - intros Hall (h & Def & (Ms & M & Hh & HM & HDef) & Hname & Hexp).
    apply list_elem_of_lookup_2 in Hh. specialize (Hall Ms Hh).
    rewrite ModuleSet_find_None in Hall.
    specialize (Hall M Def HM HDef).
    assert (provides Name true Def = true) by by apply provides_spec.
    congruence.
  - intros Hno Ms [h Hh]%list_elem_of_lookup_1.
    apply ModuleSet_find_None. intros M Def HM HDef.
    destruct (provides Name true Def) eqn:Hp; [|done].
    apply provides_spec in Hp as [Hname Hexp].
    destruct Hno. exists h, Def. split_and!; auto. by exists Ms, M.
Qed.

Lemma CODLayer_findSymbol_bool L Name :
  JITSymbol_bool (CODLayer_findSymbol L Name true) = true ↔ exports L Name.
Proof.
  destruct (CODLayer_findSymbol L Name true) as [|h Def] eqn:Hfind; simpl.
  - apply CODLayer_findSymbol_nullptr in Hfind. naive_solver.
  - split; [|done]. intros _.
    apply CODLayer_findSymbol_lazy in Hfind as [Hdef [? Hexp]%provides_spec].
    exists h, Def. auto.
Qed.


End LayerLookup.

(** ** The engine's methods, step by step *)

(** Unfolds the monad and the primitive state updates. *)
Ltac run_jit :=
  unfold via_CODLayer, mbind, JITM_bind, mret, JITM_ret, this, log,
    runViaLayer, set_CODLayer, set_CXXRuntimeOverrides,
    set_IRStaticDestructorRunners;
  simpl.

Section EngineSteps.
Context `{Target}.

Lemma bind_run {A B} (m : JITM A) (k : A → JITM B) (w : World) :
  (m ≫= k) w = k (m w).1 (m w).2.
Proof. unfold mbind, JITM_bind. by destruct (m w). Qed.

Lemma ret_run {A} (a : A) (w : World) : mret (M := JITM) a w = (a, w).
Proof. done. Qed.

Lemma mangle_text E Name :
  mangle E Name = getNameWithPrefix (Mangler_DL (Mang E)) Name.
Proof. done. Qed.

(** A loop of [push_back]s appends the images in the order of the loop. *)
Lemma push_back_loop {A B} (f : A → B) (xs : list A) (v : list B) :
  foldl (λ v x, push_back v (f x)) v xs = v ++ (f <$> xs).
Proof.
  revert v. induction xs as [|x xs IH]; intros v; simpl.
  - by rewrite app_nil_r.
  - rewrite IH. unfold push_back. by rewrite <- app_assoc.
Qed.

Lemma setDataLayout_stamp (M : Module) (E : OrcLazyJIT) :
  let M' := if isDefault (getDataLayout M)
            then setDataLayout M (TM_getDataLayout (TM E)) else M in
  getConstructors M' = getConstructors M
  ∧ getDestructors M' = getDestructors M
  ∧ Symbols M' = Symbols M.
Proof. simpl. by destruct (isDefault _). Qed.

(** [addModule] in one step. *)
Lemma addModule_run (M : Module) (w : World) :
  addModule M w =
    (length (ModuleSets (CODLayer (JIT w))),
     {| JIT := {| TM := TM (JIT w); Mang := Mang (JIT w);
                  CODLayer :=
                    {| ModuleSets :=
                         ModuleSets (CODLayer (JIT w))
                         ++ [[submitted (JIT w) M]];
                       Emitted := Emitted (CODLayer (JIT w)) |};
                  CXXRuntimeOverrides := CXXRuntimeOverrides (JIT w);
                  IRStaticDestructorRunners :=
                    IRStaticDestructorRunners (JIT w)
                    ++ [dtor_runner (JIT w)
                          (length (ModuleSets (CODLayer (JIT w)))) M] |};
        Ran := Ran w
               ++ [RunViaLayer
                     (ctor_runner (JIT w)
                        (length (ModuleSets (CODLayer (JIT w)))) M)] |}).
Proof.
  destruct (setDataLayout_stamp M (JIT w)) as (HC & HD & _).
  unfold addModule, submitted, dtor_runner, ctor_runner. run_jit.
  rewrite !(push_back_loop (λ F, mangle (JIT w) (getName (Func F)))).
  unfold push_back. simpl. by rewrite HC, HD.
Qed.

Lemma for_each_log (Rs : list CtorDtorRunner) (w : World) :
  for_each Rs (λ DtorRunner, runViaLayer DtorRunner) w =
    (tt, {| JIT := JIT w; Ran := Ran w ++ (RunViaLayer <$> Rs) |}).
Proof.
  revert w. induction Rs as [|R Rs IH]; intros w; simpl.
  - rewrite ret_run, app_nil_r. by destruct w.
  - rewrite bind_run, IH. simpl. by rewrite <- app_assoc.
Qed.

(** [~OrcLazyJIT] in one step. *)
Lemma OrcLazyJIT_destroy_run (w : World) :
  OrcLazyJIT_destroy w =
    (tt, {| JIT := {| TM := TM (JIT w); Mang := Mang (JIT w);
                      CODLayer := CODLayer (JIT w);
                      CXXRuntimeOverrides :=
                        {| Overrides :=
                             Overrides (CXXRuntimeOverrides (JIT w));
                           Pending := [] |};
                      IRStaticDestructorRunners :=
                        IRStaticDestructorRunners (JIT w) |};
            Ran := Ran w
                   ++ RunDestructors (Pending (CXXRuntimeOverrides (JIT w)))
                      :: (RunViaLayer <$> IRStaticDestructorRunners (JIT w))
         |}).
Proof.
  unfold OrcLazyJIT_destroy.
  rewrite bind_run, bind_run, for_each_log. simpl.
  by rewrite <- app_assoc.
Qed.

Lemma teardown_log_spec (w : World) :
  teardown_log w =
    RunDestructors (Pending (CXXRuntimeOverrides (JIT w)))
    :: (RunViaLayer <$> IRStaticDestructorRunners (JIT w)).
Proof.
  unfold teardown_log. rewrite OrcLazyJIT_destroy_run. simpl.
  by rewrite drop_app_length.
Qed.

Lemma runners_run_fmap (Rs : list CtorDtorRunner) :
  runners_run (RunViaLayer <$> Rs) = Rs.
Proof.
  induction Rs as [|R Rs IH]; [done|].
  change (R :: runners_run (RunViaLayer <$> Rs) = R :: Rs). by rewrite IH.
Qed.

End EngineSteps.

(** ** Symbol resolution *)

Section Resolution.
Context `{Target}.

Lemma tier_units_None E Name :
  tier_units E Name = None ↔ ¬ exports (CODLayer E) Name.
Proof.
  rewrite <- CODLayer_findSymbol_nullptr. unfold tier_units.
  by destruct (CODLayer_findSymbol _ _ _).
Qed.

Lemma searchOverrides_tier E Name :
  (if SymbolInfo_bool (searchOverrides (CXXRuntimeOverrides E) Name)
   then Some (searchOverrides (CXXRuntimeOverrides E) Name) else None)
  = tier_overrides E Name.
Proof.
  unfold searchOverrides, tier_overrides, SymbolInfo_bool.
  destruct (Overrides _ !! Name) as [Addr|]; simpl; [|done].
  rewrite N_eqb_decide. by case_bool_decide.
Qed.

(** [FallbackLookup] is the chain of the three tiers. *)
Lemma FallbackLookup_chain (w : World) (Name : string) :
  (FallbackLookup Name w).1 =
    first_success
      [tier_units (JIT w) Name; tier_overrides (JIT w) Name; tier_host Name].
Proof.
  unfold FallbackLookup, tier_units. run_jit.
  destruct (CODLayer_findSymbol _ Name true) as [|h Def]; simpl; [|done].
  rewrite <- searchOverrides_tier.
  destruct (SymbolInfo_bool _); simpl; [done|].
  unfold tier_host. rewrite N_eqb_decide. by case_bool_decide.
Qed.

(** C1. The resolver built by [addModule] is the chain "added units, then
    the override registry, then the host process", stopping at the first
    tier that succeeds.  In particular a name exported by an added unit
    resolves to a unit's definition whatever the registry and the host
    hold, and a name no unit exports that the registry maps to a routine
    resolves to that routine whatever the host holds. *)
Theorem FallbackLookup_tier_order (w : World) (Name : string) :
  let E := JIT w in
  let Result := (FallbackLookup Name w).1 in
  Result = first_success
             [tier_units E Name; tier_overrides E Name; tier_host Name]
  ∧ (exports (CODLayer E) Name →
       ∃ h Def, defines (CODLayer E) h Def ∧ SymbolName Def = Name
                ∧ Exported (SymbolFlags Def) = true
                ∧ Result = {| Address := SymbolAddress Def;
                              Flags := SymbolFlags Def |})
  ∧ (∀ Addr, ¬ exports (CODLayer E) Name →
       Overrides (CXXRuntimeOverrides E) !! Name = Some Addr →
       Addr ≠ 0%N →
       Result = {| Address := Addr; Flags := JITSymbolFlags_Exported |}).
Proof.
  simpl. split_and!.
  - apply FallbackLookup_chain.
  - intros Hexp. rewrite FallbackLookup_chain. unfold tier_units.
    destruct (CODLayer_findSymbol _ Name true) as [|h Def] eqn:Hfind.
    + by apply CODLayer_findSymbol_nullptr in Hfind.
    + apply CODLayer_findSymbol_lazy in Hfind as [Hdef [? Hex]%provides_spec].
      exists h, Def. split_and!; auto.
  - intros Addr Hno%tier_units_None Hreg Hnz.
    rewrite FallbackLookup_chain, Hno. unfold tier_overrides.
    rewrite Hreg. by rewrite bool_decide_eq_false_2.
Qed.

(** C7. A lookup that misses all three tiers returns the null-address
    symbol as a value, and the engine and the log of routines run are
    exactly as before the lookup. *)
Theorem FallbackLookup_miss (w : World) (Name : string) :
  ¬ exports (CODLayer (JIT w)) Name →
  (∀ Addr, Overrides (CXXRuntimeOverrides (JIT w)) !! Name = Some Addr →
           Addr = 0%N) →
  getSymbolAddressInProcess Name = 0%N →
  FallbackLookup Name w = (SymbolInfo_nullptr, w)
  ∧ Address (FallbackLookup Name w).1 = 0%N.
Proof.
  intros Hno%CODLayer_findSymbol_nullptr Hreg Hhost.
  assert (FallbackLookup Name w = (SymbolInfo_nullptr, w)) as Hrun.
  { unfold FallbackLookup. run_jit. rewrite Hno. simpl.
    unfold searchOverrides, SymbolInfo_bool.
    destruct (Overrides _ !! Name) as [Addr|] eqn:Hlook; simpl.
    - rewrite (Hreg Addr eq_refl). simpl. by rewrite Hhost.
    - by rewrite Hhost. }
  by rewrite Hrun.
Qed.


End Resolution.

(** ** Adding a unit *)

Section AddModule.
Context `{Target}.

(** C4. The unit [addModule] submits to the layer carries the target
    machine's data layout when the unit's own layout is the default
    (absent) one, and is the unit itself, layout included, otherwise; the
    rest of the unit is the same in both cases. *)
Theorem addModule_data_layout (M : Module) (w : World) :
  let E := JIT w in
  let E' := JIT (addModule M w).2 in
  ∃ M', ModuleSets (CODLayer E') = ModuleSets (CODLayer E) ++ [[M']]
        ∧ getDataLayout M' =
            (if isDefault (getDataLayout M)
             then TM_getDataLayout (TM E) else getDataLayout M)
        ∧ (isDefault (getDataLayout M) = false → M' = M)
        ∧ getConstructors M' = getConstructors M
        ∧ getDestructors M' = getDestructors M
        ∧ Symbols M' = Symbols M.
Proof.
  cbv zeta. rewrite addModule_run. simpl.
  exists (submitted (JIT w) M). unfold submitted.
  destruct (isDefault (getDataLayout M)); simpl; split_and!; done.
Qed.

(** C5. [addModule] returns the handle the layer issued for the unit; by
    then it has run the unit's constructors, under their mangled names and
    in the order they were discovered, and has recorded as last runner the
    unit's destructors, under their mangled names, tagged with that
    handle.  The names are those of the unit as it was handed in, and the
    mangled name of a function is what the engine's mangler, as it was
    before the unit went to the layer, writes for the function's name. *)
Theorem addModule_ctors_dtors (M : Module) (w : World) :
  let E := JIT w in
  let h := (addModule M w).1 in
  let w' := (addModule M w).2 in
  let mangled := getNameWithPrefix (Mangler_DL (Mang E)) in
  h = (CODLayer_addModuleSet [submitted E M] (CODLayer E)).1
  ∧ ModuleSets (CODLayer (JIT w')) !! h = Some [submitted E M]
  ∧ Ran w' =
      Ran w ++
      [RunViaLayer
         {| CtorDtorNames :=
              (λ Ctor, mangled (getName (Func Ctor))) <$> getConstructors M;
            CtorDtorRunner_H := h |}]
  ∧ IRStaticDestructorRunners (JIT w') =
      IRStaticDestructorRunners E ++
      [{| CtorDtorNames :=
            (λ Dtor, mangled (getName (Func Dtor))) <$> getDestructors M;
          CtorDtorRunner_H := h |}].
Proof.
  cbv zeta. rewrite addModule_run. simpl.
  unfold ctor_runner, dtor_runner.
  rewrite (list_fmap_ext _ _ (getConstructors M)
             (λ _ Ctor _, mangle_text (JIT w) (getName (Func Ctor)))).
  rewrite (list_fmap_ext _ _ (getDestructors M)
             (λ _ Dtor _, mangle_text (JIT w) (getName (Func Dtor)))).
  split_and!; try done.
  by rewrite list_lookup_middle.
Qed.

End AddModule.

(** ** Mangling *)

Section Mangling.
Context `{Target}.

Lemma FallbackLookup_Mang (Name : string) (w : World) :
  Mang (JIT (FallbackLookup Name w).2) = Mang (JIT w).
Proof.
  unfold FallbackLookup. run_jit.
  destruct (CODLayer_findSymbol _ Name true); simpl; [|done].
  destruct (SymbolInfo_bool _); [done|].
  by destruct (negb _).
Qed.

Lemma serve_Mang (r : Request) (w : World) :
  Mang (JIT (serve r w).2) = Mang (JIT w).
Proof.
  destruct r as [M|Name|h Name|Name]; unfold serve; rewrite bind_run, ret_run;
    cbn [snd].
  - by rewrite addModule_run.
  - done.
  - done.
  - apply FallbackLookup_Mang.
Qed.

Lemma serve_all_Mang (rs : list Request) (w : World) :
  Mang (JIT (for_each rs serve w).2) = Mang (JIT w).
Proof.
  revert w. induction rs as [|r rs IH]; intros w; simpl; [done|].
  by rewrite bind_run, IH, serve_Mang.
Qed.

(** C9. [mangle] writes what the mangler writes for the name under the
    layout it was built on, which is the layout of the target machine the
    engine was constructed with; no request served by the engine changes
    the mangler, so after any requests the same name is mangled to the
    same decorated name. *)
Theorem mangle_deterministic (w : World) (rs : list Request)
    (Name : string) :
  let w' := (for_each rs serve w).2 in
  mangle (JIT w') Name = mangle (JIT w) Name
  ∧ mangle (JIT w) Name = getNameWithPrefix (Mangler_DL (Mang (JIT w))) Name
  ∧ ∀ TM0, mangle (JIT (for_each rs serve (boot TM0)).2) Name
           = getNameWithPrefix (TM_getDataLayout TM0) Name.
Proof.
  simpl. split_and!.
  - by rewrite !mangle_text, serve_all_Mang.
  - apply mangle_text.
  - intros TM0. by rewrite mangle_text, serve_all_Mang.
Qed.

End Mangling.

(** ** Teardown *)

Section Teardown.
Context `{Target}.

Lemma dtor_runner_Mang E1 E2 h M :
  Mang E1 = Mang E2 → dtor_runner E1 h M = dtor_runner E2 h M.
Proof.
  intros HM. unfold dtor_runner. f_equal.
  apply list_fmap_ext. intros _ Dtor _. by rewrite !mangle_text, HM.
Qed.

(** Adding units appends their runners, one per unit, in the order of the
    units, with consecutive handles. *)
Lemma added_runners (Ms : list Module) (w : World) :
  let w' := (for_each Ms (λ M, addModule M;; mret tt) w).2 in
  let n := length (ModuleSets (CODLayer (JIT w))) in
  Mang (JIT w') = Mang (JIT w)
  ∧ IRStaticDestructorRunners (JIT w') =
      IRStaticDestructorRunners (JIT w)
      ++ imap (λ i M, dtor_runner (JIT w) (n + i) M) Ms.
Proof.
  revert w. induction Ms as [|M Ms IH]; intros w; simpl.
  - by rewrite app_nil_r.
  - rewrite !bind_run, ret_run, addModule_run. simpl.
    match goal with |- context [for_each Ms _ ?w1] =>
      destruct (IH w1) as [HM HR] end.
    simpl in HM, HR. split; [done|].
    rewrite HR, <- app_assoc. simpl. f_equal.
    rewrite Nat.add_0_r. f_equal.
    apply imap_ext. intros i M' _. simpl.
    rewrite length_app. simpl.
    replace (length (ModuleSets (CODLayer (JIT w))) + 1 + i)
      with (length (ModuleSets (CODLayer (JIT w))) + S i) by lia.
    by apply dtor_runner_Mang.
Qed.

(** C2 (amended). Teardown runs the recorded destructor runners in the
    order their units were added: for units added in the order A, B, C it
    runs the destructors of A, then those of B, then those of C. *)
Theorem teardown_runs_in_insertion_order (TM0 : TargetMachine)
    (Ms : list Module) :
  runners_run (teardown_log (added TM0 Ms)) =
    imap (λ h M, dtor_runner (OrcLazyJIT_new TM0) h M) Ms.
Proof.
  rewrite teardown_log_spec. simpl. rewrite runners_run_fmap.
  unfold added. destruct (added_runners Ms (boot TM0)) as [_ ->].
  done.
Qed.

(** C3 (amended). Teardown first runs the cleanup routines pending in
    the override registry, which leaves none pending, and only then the
    recorded destructor runners, every one of them. *)
Theorem teardown_runs_cleanups_first (w : World) :
  teardown_log w =
    RunDestructors (Pending (CXXRuntimeOverrides (JIT w)))
    :: (RunViaLayer <$> IRStaticDestructorRunners (JIT w))
  ∧ Pending (CXXRuntimeOverrides (JIT (OrcLazyJIT_destroy w).2)) = [].
Proof.
  split; [apply teardown_log_spec|]. by rewrite OrcLazyJIT_destroy_run.
Qed.

End Teardown.

(** ** The engine on the example units *)

Section Examples.
Local Existing Instance ExampleTarget.

Example mangle_main : mangle (JIT engine_AB) "main" = "_main".
Proof. reflexivity. Qed.

Example registry_after_construction :
  Overrides (CXXRuntimeOverrides (OrcLazyJIT_new darwin))
  = {[ "___cxa_atexit" := 4096%N; "___dso_handle" := 4104%N ]}.
Proof. vm_compute. reflexivity. Qed.

(** Adding A and B ran the constructors of A, then those of B (none). *)
Example constructors_ran :
  Ran engine_AB =
    [RunViaLayer {| CtorDtorNames := ["_ctorA1"; "_ctorA2"];
                    CtorDtorRunner_H := 0 |};
     RunViaLayer {| CtorDtorNames := []; CtorDtorRunner_H := 1 |}].
Proof. vm_compute. reflexivity. Qed.

(** A had no layout and was stamped; B kept its own. *)
Example layouts_submitted :
  map (map getDataLayout) (ModuleSets (CODLayer (JIT engine_AB)))
  = [["e-m:o-i64:64-f80:128-n8:16:32:64-S128"]; ["e-m:o"]].
Proof. vm_compute. reflexivity. Qed.

(** [add] is exported by A and by B: the first unit added answers. *)
Example findSymbol_add :
  (findSymbol "add" engine_AB).1 = JITSymbol_lazy 0 (global "_add" 4112%N true)
  ∧ (findSymbolIn 1 "add" engine_AB).1
    = JITSymbol_lazy 1 (global "_add" 8224%N true).
Proof. split; vm_compute; reflexivity. Qed.

(** The key is the mangled name: a decorated name is mangled once more,
    and an internal symbol is not found. *)
Example findSymbol_misses :
  (findSymbol "_add" engine_AB).1 = JITSymbol_nullptr
  ∧ (findSymbol "helper" engine_AB).1 = JITSymbol_nullptr.
Proof. split; vm_compute; reflexivity. Qed.

(** The resolver on a unit symbol, a registry routine, a host symbol and an
    unknown name. *)
Example FallbackLookup_examples :
  (FallbackLookup "_add" engine_AB).1
  = {| Address := 4112%N; Flags := JITSymbolFlags_Exported |}
  ∧ (FallbackLookup "___cxa_atexit" engine_AB).1
    = {| Address := 4096%N; Flags := JITSymbolFlags_Exported |}
  ∧ (FallbackLookup "___cxa_atexit" engine_ABC).1
    = {| Address := 12304%N; Flags := JITSymbolFlags_Exported |}
  ∧ (FallbackLookup "_puts" engine_AB).1
    = {| Address := 8192%N; Flags := JITSymbolFlags_Exported |}
  ∧ (FallbackLookup "_missing_fn" engine_AB).1 = SymbolInfo_nullptr.
Proof. split_and!; vm_compute; reflexivity. Qed.

(** A hit in a unit emits that unit; this is the state change a miss does
    not have. *)
Example FallbackLookup_hit_emits :
  Emitted (CODLayer (JIT engine_AB)) = ∅
  ∧ Emitted (CODLayer (JIT (FallbackLookup "_main" engine_AB).2)) = {[ 1 ]}.
Proof. split; vm_compute; reflexivity. Qed.

Example teardown_example :
  teardown_log engine_AB_pending =
    [RunDestructors [(8240%N, 0%N)]; RunViaLayer runner_A;
     RunViaLayer runner_B].
Proof. vm_compute. reflexivity. Qed.

(** With A, B and C added in this order, teardown runs the destructors of
    A, then B, then C, and not those of C, then B, then A. *)
Lemma teardown_order_not_reversed :
  runners_run (teardown_log engine_ABC) = [runner_A; runner_B; runner_C]
  ∧ runners_run (teardown_log engine_ABC) ≠ [runner_C; runner_B; runner_A].
Proof.
  assert (runners_run (teardown_log engine_ABC)
          = [runner_A; runner_B; runner_C]) as Hrun
    by (vm_compute; reflexivity).
  split; [exact Hrun|]. rewrite Hrun. discriminate.
Qed.

(** With a cleanup routine pending, teardown runs it before the runners
    of A and B, not after them. *)
Lemma teardown_cleanups_not_last :
  ¬ cleanups_last (teardown_log engine_AB_pending).
Proof.
  intros Hlast.
  assert (1 < 0) as Hlt; [|lia].
  apply (Hlast 0 1 [(8240%N, 0%N)] runner_A); vm_compute; reflexivity.
Qed.

(** The resolver at concrete names: [___cxa_atexit] is exported by C in
    [engine_ABC], and only the registry and the host know it in
    [engine_AB]. *)
Lemma FallbackLookup_tier_order_witness :
  (∃ h Def, defines (CODLayer (JIT engine_ABC)) h Def
            ∧ SymbolName Def = "___cxa_atexit"
            ∧ Exported (SymbolFlags Def) = true
            ∧ (FallbackLookup "___cxa_atexit" engine_ABC).1
              = {| Address := SymbolAddress Def;
                   Flags := SymbolFlags Def |})
  ∧ (FallbackLookup "___cxa_atexit" engine_AB).1
    = {| Address := 4096%N; Flags := JITSymbolFlags_Exported |}.
Proof.
  split.
  - apply (proj1 (proj2 (FallbackLookup_tier_order engine_ABC
                            "___cxa_atexit"))).
    apply CODLayer_findSymbol_bool. vm_compute. reflexivity.
  - apply (proj2 (proj2 (FallbackLookup_tier_order engine_AB "___cxa_atexit"))
             4096%N).
    + apply CODLayer_findSymbol_nullptr. vm_compute. reflexivity.
    + vm_compute. reflexivity.
    + discriminate.
Defined.

Lemma FallbackLookup_miss_witness :
  FallbackLookup "_missing_fn" engine_AB = (SymbolInfo_nullptr, engine_AB)
  ∧ Address (FallbackLookup "_missing_fn" engine_AB).1 = 0%N.
Proof.
  apply (FallbackLookup_miss engine_AB "_missing_fn").
  - apply CODLayer_findSymbol_nullptr. vm_compute. reflexivity.
  - intros Addr. vm_compute. discriminate.
  - reflexivity.
Defined.


Lemma addModule_data_layout_witness :
  ∃ M', ModuleSets (CODLayer (JIT (addModule unit_B (boot darwin)).2))
        = ModuleSets (CODLayer (JIT (boot darwin))) ++ [[M']]
        ∧ M' = unit_B.
Proof.
  destruct (addModule_data_layout unit_B (boot darwin))
    as (M' & Hsets & _ & Hsame & _).
  exists M'. split; [exact Hsets|]. apply Hsame. reflexivity.
Defined.

(** Adding C to the engine that holds A and B: the handle is the third,
    the constructor of C is run under its decorated name, and the runner of
    the destructors of C is recorded after those of A and B. *)
Lemma addModule_ctors_dtors_witness :
  (addModule unit_C engine_AB).1 = 2
  ∧ Ran (addModule unit_C engine_AB).2 =
      Ran engine_AB
      ++ [RunViaLayer {| CtorDtorNames := ["_ctorC"];
                         CtorDtorRunner_H := 2 |}]
  ∧ IRStaticDestructorRunners (JIT (addModule unit_C engine_AB).2)
    = [runner_A; runner_B; runner_C].
Proof.
  destruct (addModule_ctors_dtors unit_C engine_AB)
    as (Hh & _ & Hran & Hdtors).
  split_and!.
  - rewrite Hh. vm_compute. reflexivity.
  - rewrite Hran, Hh. vm_compute. reflexivity.
  - rewrite Hdtors, Hh. vm_compute. reflexivity.
Defined.

End Examples.

(** ** The debug-info printer: [print] *)

Section PrinterProperties.
Context `{DwarfNames}.

Lemma printFile_location O Filename Directory Line :
  printFile O Filename Directory Line
  = O +:+ location_text Filename Directory Line.
Proof.
  unfold location_text, printFile, write, write_unsigned.
  destruct (StringRef_empty Filename); [by rewrite append_nil_r|].
  destruct (negb (StringRef_empty Directory)), (negb (Line =? 0)%N);
    by rewrite ?append_assoc, ?append_nil_l.
Qed.

(** Normalises a text written piece by piece. *)
Ltac stream_norm :=
  unfold write, write_unsigned;
  rewrite ?printFile_location, ?append_assoc, ?append_nil_l.

Lemma print_compile_unit_app O CU :
  print_compile_unit O CU = O +:+ print_compile_unit EmptyString CU.
Proof.
  unfold print_compile_unit.
  destruct (LanguageString (CU_getLanguage CU)); by stream_norm.
Qed.

Lemma print_subprogram_app O SP :
  print_subprogram O SP = O +:+ print_subprogram EmptyString SP.
Proof.
  unfold print_subprogram.
  destruct (negb (StringRef_empty (SP_getLinkageName SP))); by stream_norm.
Qed.

Lemma print_global_variable_app O GV :
  print_global_variable O GV = O +:+ print_global_variable EmptyString GV.
Proof.
  unfold print_global_variable.
  destruct (negb (StringRef_empty (GV_getLinkageName GV))); by stream_norm.
Qed.

Lemma print_type_app O T :
  print_type O T = O +:+ print_type EmptyString T.
Proof.
  unfold print_type.
  destruct (negb (StringRef_empty (T_getName T))), (T_isBasicType T),
    (AttributeEncodingString (T_getEncoding T)), (TagString (T_getTag T)),
    (T_isCompositeType T), (T_getIdentifier T); by stream_norm.
Qed.

(** A loop whose body only appends writes the lines of its elements. *)
Lemma loop_lines {A} (body : raw_ostream → A → raw_ostream) :
  (∀ O x, body O x = O +:+ body EmptyString x) →
  ∀ xs O, foldl body O xs = O +:+ concat_text (body EmptyString <$> xs).
Proof.
  intros Hbody xs. induction xs as [|x xs IH]; intros O; simpl.
  - by rewrite append_nil_r.
  - rewrite IH, Hbody. unfold concat_text. simpl. by rewrite append_assoc.
Qed.

Lemma concat_text_app (ls1 ls2 : list string) :
  concat_text (ls1 ++ ls2) = concat_text ls1 +:+ concat_text ls2.
Proof.
  unfold concat_text. induction ls1 as [|l ls1 IH]; simpl; [done|].
  by rewrite IH, append_assoc.
Qed.

Lemma loop_lines_print (Finder : DebugInfoFinder) (O : raw_ostream) :
  print Finder O = O +:+ concat_text (record_lines Finder).
Proof.
  unfold print, record_lines.
  rewrite (loop_lines _ print_type_app),
    (loop_lines _ print_global_variable_app),
    (loop_lines _ print_subprogram_app),
    (loop_lines _ print_compile_unit_app).
  by rewrite !concat_text_app, !append_assoc.
Qed.

(** X1. [print] leaves what is on the stream and appends the lines of the
    records: the compile units first, then the subprograms, the global
    variables and the types, each list in the finder's order, and the line
    of a record is what its loop body writes to an empty stream. *)
Theorem print_appends_record_lines (Finder : DebugInfoFinder)
    (O : raw_ostream) :
  print Finder O = O +:+ concat_text (record_lines Finder).
Proof.
  unfold print, record_lines.
  rewrite (loop_lines _ print_type_app),
    (loop_lines _ print_global_variable_app),
    (loop_lines _ print_subprogram_app),
    (loop_lines _ print_compile_unit_app).
  by rewrite !concat_text_app, !append_assoc.
Qed.

Lemma newlines_app (a b : string) :
  newlines (a +:+ b) = newlines a + newlines b.
Proof.
  induction a as [|c a IH]; [done|].
  rewrite append_cons. simpl. rewrite IH. lia.
Qed.

Lemma newlines_digit (d : N) (s : string) :
  newlines (String (pretty_N_char d) s) = newlines s.
Proof. unfold pretty_N_char. by repeat case_match. Qed.

Lemma newlines_pretty_go (x : N) (s : string) :
  newlines (pretty_N_go x s) = newlines s.
Proof.
  revert s. induction (N.lt_wf_0 x) as [x _ IH]; intros s.
  destruct (decide (x = 0%N)) as [->|Hx]; [by rewrite pretty_N_go_0|].
  rewrite pretty_N_go_step by lia.
  rewrite IH by (apply N.div_lt; lia). apply newlines_digit.
Qed.

(** A number printed in decimal holds no newline. *)
Lemma newlines_pretty (n : N) : newlines (pretty n) = 0.
Proof.
  unfold pretty, pretty_N. case_decide; [done|]. apply newlines_pretty_go.
Qed.

Lemma newlines_location Filename Directory Line :
  newlines Filename = 0 → newlines Directory = 0 →
  newlines (location_text Filename Directory Line) = 0.
Proof.
  intros HF HD. unfold location_text, printFile, write, write_unsigned.
  destruct (StringRef_empty Filename); [done|].
  destruct (negb (StringRef_empty Directory)), (negb (Line =? 0)%N);
    rewrite ?newlines_app, ?newlines_pretty, ?HF, ?HD; done.
Qed.

(** Counts the newlines of a text written piece by piece. *)
Ltac count_newlines :=
  stream_norm; rewrite ?newlines_app, ?newlines_pretty;
  repeat match goal with
         | Hplain : newlines ?s = 0 |- context [newlines ?s] =>
             rewrite Hplain
         end;
  try done.

Lemma concat_text_newlines (ls : list string) :
  (∀ l, l ∈ ls → newlines l = 1) →
  newlines (concat_text ls) = length ls.
Proof.
  unfold concat_text. induction ls as [|l ls IH]; intros Hall; simpl; [done|].
  rewrite newlines_app, (Hall l), IH; [done| |apply list_elem_of_here].
  intros l' Hl'. apply Hall. by apply list_elem_of_further.
Qed.

Lemma record_line_newlines (Finder : DebugInfoFinder) :
  plain_names → plain_finder Finder →
  ∀ l, l ∈ record_lines Finder → newlines l = 1.
Proof.
  intros Hnames (HCU & HSP & HGV & HT) l. unfold record_lines.
  rewrite !elem_of_app, !list_elem_of_fmap.
  intros [(CU & -> & HinCU)|[(SP & -> & HinSP)|[(GV & -> & HinGV)
                                                |(T & -> & HinT)]]].
  - destruct (HCU CU HinCU) as [HF HD].
    pose proof (newlines_location _ _ 0%N HF HD) as Hloc.
    destruct (Hnames (CU_getLanguage CU)) as (HL & _ & _).
    unfold print_compile_unit.
    destruct (LanguageString (CU_getLanguage CU)) as [Lang|] eqn:HLang.
    + pose proof (HL Lang eq_refl). count_newlines.
    + count_newlines.
  - destruct (HSP SP HinSP) as (HN & HF & HD & HLn).
    pose proof (newlines_location _ _ (SP_getLineNumber SP) HF HD) as Hloc.
    unfold print_subprogram.
    destruct (negb (StringRef_empty (SP_getLinkageName SP))); count_newlines.
  - destruct (HGV GV HinGV) as (HN & HF & HD & HLn).
    pose proof (newlines_location _ _ (GV_getLineNumber GV) HF HD) as Hloc.
    unfold print_global_variable.
    destruct (negb (StringRef_empty (GV_getLinkageName GV))); count_newlines.
  - destruct (HT T HinT) as (HN & HF & HD & HId).
    pose proof (newlines_location _ _ (T_getLineNumber T) HF HD) as Hloc.
    destruct (Hnames (T_getEncoding T)) as (_ & HE & _).
    destruct (Hnames (T_getTag T)) as (_ & _ & HTag).
    unfold print_type.
    destruct (negb (StringRef_empty (T_getName T))), (T_isBasicType T),
      (AttributeEncodingString (T_getEncoding T)) as [Enc|],
      (TagString (T_getTag T)) as [Tag|], (T_isCompositeType T),
      (T_getIdentifier T) as [Str|];
      try pose proof (HE _ eq_refl); try pose proof (HTag _ eq_refl);
      try pose proof (HId _ eq_refl); count_newlines.
Qed.

(** X2. When no field of a record and no name of the DWARF tables holds a
    newline, [print] writes exactly one line per record: the number of
    newlines on the stream grows by the number of records of the finder. *)
Theorem print_one_line_per_record (Finder : DebugInfoFinder)
    (O : raw_ostream) :
  plain_names → plain_finder Finder →
  newlines (print Finder O) = newlines O + records Finder.
Proof.
  intros Hnames Hplain.
  rewrite (loop_lines_print Finder O), newlines_app.
  rewrite concat_text_newlines by by apply record_line_newlines.
  unfold record_lines, records. rewrite !length_app, !length_fmap. lia.
Qed.

(** X3. For a file name that is not empty, the text [printFile] writes
    tells the line numbers apart: two calls that write the same text were
    given the same line. *)
Theorem printFile_line_inj (O : raw_ostream) (Filename Directory : string)
    (Line1 Line2 : N) :
  Filename ≠ EmptyString →
  printFile O Filename Directory Line1
  = printFile O Filename Directory Line2 →
  Line1 = Line2.
Proof.
  intros HF%StringRef_empty_false. unfold printFile. rewrite HF.
  unfold write, write_unsigned. rewrite !N_eqb_decide. cbv zeta.
  match goal with
  | |- context [?Dir +:+ Filename] => generalize (Dir +:+ Filename)
  end.
  intros Pre.
  repeat case_bool_decide; simpl negb; cbv iota; try congruence.
  - rewrite <- (append_nil_r Pre) at 1. rewrite append_assoc.
    by intros ?%(inj (String.append Pre)).
  - rewrite <- (append_nil_r Pre) at 2. rewrite append_assoc.
    by intros ?%(inj (String.append Pre)).
  - rewrite !append_assoc.
    intros Heq%(inj (String.append Pre)).
    apply (inj (String.append ":")) in Heq. by apply (inj pretty) in Heq.
Qed.

End PrinterProperties.

(** ** The resolver, further *)

Section ResolverProperties.
Context `{Target}.

(** [FallbackLookup] in one step. *)
Lemma FallbackLookup_run (Name : string) (w : World) :
  FallbackLookup Name w =
    match CODLayer_findSymbol (CODLayer (JIT w)) Name true with
    | JITSymbol_lazy h Def =>
        ({| Address := SymbolAddress Def; Flags := SymbolFlags Def |},
         emit h w)
    | JITSymbol_nullptr =>
        (first_success [tier_overrides (JIT w) Name; tier_host Name], w)
    end.
Proof.
  unfold FallbackLookup. run_jit.
  destruct (CODLayer_findSymbol _ Name true) as [|h Def]; simpl; [|done].
  rewrite <- searchOverrides_tier.
  destruct (SymbolInfo_bool _); simpl; [done|].
  unfold tier_host. rewrite N_eqb_decide. by case_bool_decide.
Qed.

Lemma emit_twice (h : ModuleHandleT) (w : World) :
  emit h (emit h w) = emit h w.
Proof.
  unfold emit. simpl. do 3 f_equal.
  apply set_eq. intros x. rewrite !elem_of_union. tauto.
Qed.

(** X4. A call of the resolver runs no native routine and leaves the
    units, the override registry, the recorded destructor runners, the
    target machine and the mangler as they are.  It takes no unit out of the
    emitted ones; when a unit answers, that unit is emitted afterwards, and
    when no unit answers nothing changes at all. *)
Theorem FallbackLookup_frame (Name : string) (w : World) :
  let w' := (FallbackLookup Name w).2 in
  Ran w' = Ran w
  ∧ ModuleSets (CODLayer (JIT w')) = ModuleSets (CODLayer (JIT w))
  ∧ CXXRuntimeOverrides (JIT w') = CXXRuntimeOverrides (JIT w)
  ∧ IRStaticDestructorRunners (JIT w') = IRStaticDestructorRunners (JIT w)
  ∧ TM (JIT w') = TM (JIT w)
  ∧ Mang (JIT w') = Mang (JIT w)
  ∧ Emitted (CODLayer (JIT w)) ⊆ Emitted (CODLayer (JIT w'))
  ∧ (∀ h Def,
       CODLayer_findSymbol (CODLayer (JIT w)) Name true
       = JITSymbol_lazy h Def →
       h ∈ Emitted (CODLayer (JIT w')))
  ∧ (CODLayer_findSymbol (CODLayer (JIT w)) Name true = JITSymbol_nullptr →
     w' = w).
Proof.
  cbv zeta. rewrite FallbackLookup_run.
  destruct (CODLayer_findSymbol _ Name true) as [|h Def]; simpl.
  - split_and!; done.
  - split_and!; try done.
    + apply union_subseteq_r.
    + intros h' Def' [= <- _]. apply elem_of_union_l.
      by apply elem_of_singleton.
Qed.

(** X5. Resolving a name a second time gives the same symbol as the first
    time and changes nothing any more. *)
Theorem FallbackLookup_idempotent (Name : string) (w : World) :
  FallbackLookup Name (FallbackLookup Name w).2
  = ((FallbackLookup Name w).1, (FallbackLookup Name w).2).
Proof.
  rewrite (FallbackLookup_run Name w).
  destruct (CODLayer_findSymbol (CODLayer (JIT w)) Name true)
    as [|h Def] eqn:Hfind; simpl.
  - by rewrite FallbackLookup_run, Hfind.
  - rewrite FallbackLookup_run. simpl.
    unfold CODLayer_findSymbol in *. simpl. rewrite Hfind.
    by rewrite emit_twice.
Qed.

(** X6. The resolver makes up no address: an address it returns that is
    not null is the address of an exported definition of that name in an
    added unit, or the registry's entry for the name, or what the host
    process returns for the name. *)
Theorem FallbackLookup_sound (Name : string) (w : World) :
  let Result := (FallbackLookup Name w).1 in
  Address Result ≠ 0%N →
  (∃ h Def, defines (CODLayer (JIT w)) h Def ∧ SymbolName Def = Name
            ∧ Exported (SymbolFlags Def) = true
            ∧ SymbolAddress Def = Address Result)
  ∨ Overrides (CXXRuntimeOverrides (JIT w)) !! Name = Some (Address Result)
  ∨ getSymbolAddressInProcess Name = Address Result.
Proof.
  cbv zeta. rewrite FallbackLookup_run.
  destruct (CODLayer_findSymbol (CODLayer (JIT w)) Name true)
    as [|h Def] eqn:Hfind; simpl.
  - unfold tier_overrides, tier_host.
    destruct (Overrides _ !! Name) as [Addr|] eqn:Hreg.
    + case_bool_decide; simpl; [|by auto].
      case_bool_decide; simpl; [done | by auto].
    + case_bool_decide; simpl; [done | by auto].
  - intros _. left.
    apply CODLayer_findSymbol_lazy in Hfind as [Hdef [? Hex]%provides_spec].
    exists h, Def. auto.
Qed.

(** X7. The lookup API and the resolver agree on the units: what
    [findSymbol] finds for a logical name is what the resolver returns for
    the mangled name, and after the resolver's call the unit that owns it is
    emitted. *)
Theorem findSymbol_resolver_agree (Name : string) (w : World)
    (h : ModuleHandleT) (Def : GlobalSymbol) :
  (findSymbol Name w).1 = JITSymbol_lazy h Def →
  (FallbackLookup (mangle (JIT w) Name) w).1
  = {| Address := SymbolAddress Def; Flags := SymbolFlags Def |}
  ∧ h ∈ Emitted (CODLayer (JIT (FallbackLookup (mangle (JIT w) Name) w).2)).
Proof.
  simpl. intros Hfind. rewrite FallbackLookup_run, Hfind. simpl.
  split; [done|]. apply elem_of_union_l. by apply elem_of_singleton.
Qed.

End ResolverProperties.

(** ** Adding units, further *)

Section AddModuleProperties.
Context `{Target}.

Lemma findSymbol_from_app h Sets Ms Name EO :
  findSymbol_from h (Sets ++ [Ms]) Name EO =
    match findSymbol_from h Sets Name EO with
    | JITSymbol_nullptr =>
        match ModuleSet_find Ms Name EO with
        | Some Def => JITSymbol_lazy (h + length Sets) Def
        | None => JITSymbol_nullptr
        end
    | Sym => Sym
    end.
Proof.
  revert h. induction Sets as [|Ms0 Sets IH]; intros h; simpl.
  - rewrite Nat.add_0_r. by destruct (ModuleSet_find Ms Name EO).
  - destruct (ModuleSet_find Ms0 Name EO); [done|].
    rewrite IH.
    by replace (S h + length Sets) with (h + S (length Sets)) by lia.
Qed.

Lemma ModuleSet_find_submitted E M Name EO :
  ModuleSet_find [submitted E M] Name EO = find (provides Name EO) (Symbols M).
Proof.
  simpl. replace (Symbols (submitted E M)) with (Symbols M).
  - by destruct (find _ _).
  - unfold submitted. by destruct (isDefault _).
Qed.

(** X8. A unit is found under the handle [addModule] returned for it, by
    the unit's own symbols: [findSymbolIn] with that handle returns the
    first symbol of the unit that is exported under the mangled name, and
    none if the unit has no such symbol.  [findSymbol] returns what it
    returned before the unit was added if that was a symbol, and what the
    new unit has otherwise. *)
Theorem addModule_then_lookup (M : Module) (w : World) (Name : string) :
  let h := (addModule M w).1 in
  let w' := (addModule M w).2 in
  (findSymbolIn h Name w').1 =
    match find (provides (mangle (JIT w) Name) true) (Symbols M) with
    | Some Def => JITSymbol_lazy h Def
    | None => JITSymbol_nullptr
    end
  ∧ (findSymbol Name w').1 =
      match (findSymbol Name w).1 with
      | JITSymbol_nullptr => (findSymbolIn h Name w').1
      | Sym => Sym
      end.
Proof.
  cbv zeta. rewrite addModule_run. cbn [fst snd].
  unfold findSymbol, findSymbolIn. run_jit. rewrite !mangle_text. simpl.
  unfold CODLayer_findSymbolIn, CODLayer_findSymbol. simpl.
  rewrite list_lookup_middle by done.
  rewrite findSymbol_from_app, ModuleSet_find_submitted. simpl.
  split; [done|].
  by destruct (findSymbol_from 0 _ _ _).
Qed.


End AddModuleProperties.

(** ** What holds at any time in the life of an engine *)

Section ReachableProperties.
Context `{Target}.

Lemma serve_run (r : Request) (w : World) :
  (serve r w).2 =
    match r with
    | AddModule M => (addModule M w).2
    | FindSymbol _ | FindSymbolIn _ _ => w
    | Resolve Name => (FallbackLookup Name w).2
    end.
Proof. destruct r; unfold serve; by rewrite bind_run, ret_run. Qed.

(** What the constructor establishes and every request keeps holds after
    any requests. *)
Lemma after_ind (P : World → Prop) (TM0 : TargetMachine) :
  P (boot TM0) →
  (∀ r w, P w → P (serve r w).2) →
  ∀ rs, P (after TM0 rs).
Proof.
  intros Hboot Hstep rs. unfold after.
  generalize (boot TM0) Hboot. induction rs as [|r rs IH]; intros w Hw; simpl.
  - done.
  - rewrite bind_run. by apply IH, Hstep.
Qed.

Lemma consistent_addModule M w : consistent w → consistent (addModule M w).2.
Proof.
  intros (Hlen & Htag & Hone & Hem). unfold consistent.
  rewrite addModule_run. simpl. split_and!.
  - rewrite !length_app. simpl. lia.
  - intros i R Hlook.
    apply lookup_snoc_Some in Hlook as [[_ Hi]|[Hi HR]]; [by apply Htag|].
    subst i R. by rewrite Hlen.
  - intros Ms [HMs | ->%list_elem_of_singleton]%elem_of_app; [by apply Hone|].
    done.
  - intros h Hh. rewrite length_app. specialize (Hem h Hh). lia.
Qed.

Lemma consistent_FallbackLookup Name w :
  consistent w → consistent (FallbackLookup Name w).2.
Proof.
  intros (Hlen & Htag & Hone & Hem). rewrite FallbackLookup_run.
  destruct (CODLayer_findSymbol (CODLayer (JIT w)) Name true)
    as [|h Def] eqn:Hfind; [done|].
  unfold consistent, emit. simpl. split_and!; [done..|].
  intros h' [->%elem_of_singleton|Hh']%elem_of_union; [|by apply Hem].
  apply CODLayer_findSymbol_lazy in Hfind as [(Ms & M & Hh & _) _].
  by eapply lookup_lt_Some.
Qed.

(** The bookkeeping agrees with the layer at any time in the life of an
    engine. *)
Lemma after_consistent (TM0 : TargetMachine) (rs : list Request) :
  consistent (after TM0 rs).
Proof.
  apply after_ind.
  - unfold consistent. simpl. split_and!; try done.
    all: intros x Hx;
      first [by apply elem_of_nil in Hx | by apply not_elem_of_empty in Hx].
  - intros r w Hw. rewrite serve_run.
    destruct r; auto using consistent_addModule, consistent_FallbackLookup.
Qed.

End ReachableProperties.

(** ** Layouts, constructors and the registry over the life of an engine *)

Section LifetimeProperties.
Context `{Target}.

Lemma submitted_layout (E : OrcLazyJIT) (M : Module) :
  isDefault (getDataLayout (submitted E M))
  = isDefault (getDataLayout M) && isDefault (TM_getDataLayout (TM E)).
Proof.
  unfold submitted.
  destruct (isDefault (getDataLayout M)) eqn:HM; simpl; [done|].
  by rewrite HM.
Qed.

Lemma serve_TM (r : Request) (w : World) : TM (JIT (serve r w).2) = TM (JIT w).
Proof.
  rewrite serve_run. destruct r as [M|Name|h Name|Name]; try done.
  rewrite FallbackLookup_run. by destruct (CODLayer_findSymbol _ _ _).
Qed.

(** X11. When the layout of the target machine the engine was built with
    is not the default one, every unit the layer holds carries a data
    layout, at any time in the life of the engine. *)
Theorem units_always_have_layout (TM0 : TargetMachine) (rs : list Request) :
  isDefault (TM_getDataLayout TM0) = false →
  all_have_layout (after TM0 rs).
Proof.
  intros HTM.
  cut (TM (JIT (after TM0 rs)) = TM0 ∧ all_have_layout (after TM0 rs));
    [by intros [_ ?]|].
  apply (after_ind (λ w, TM (JIT w) = TM0 ∧ all_have_layout w)).
  - split; [done|]. intros Ms M HMs. by apply elem_of_nil in HMs.
  - intros r w [HTMw Hall]. split; [by rewrite serve_TM|].
    rewrite serve_run. destruct r as [M|Name|h Name|Name]; try done.
    + rewrite addModule_run. intros Ms M'. simpl.
      intros [HMs | ->%list_elem_of_singleton]%elem_of_app;
        [by apply Hall|].
      intros ->%list_elem_of_singleton.
      rewrite submitted_layout, HTMw, HTM. apply andb_false_r.
    + rewrite FallbackLookup_run.
      by destruct (CODLayer_findSymbol _ _ _).
Qed.

Lemma ctor_runner_Mang E1 E2 h M :
  Mang E1 = Mang E2 → ctor_runner E1 h M = ctor_runner E2 h M.
Proof.
  intros HM. unfold ctor_runner. f_equal.
  apply list_fmap_ext. intros _ Ctor _. by rewrite !mangle_text, HM.
Qed.

(** Serving requests logs the constructor runs of the units added, and
    nothing else. *)
Lemma served_log (rs : list Request) (w : World) :
  Mang (JIT (for_each rs serve w).2) = Mang (JIT w)
  ∧ Ran (for_each rs serve w).2 =
      Ran w
      ++ imap (λ i M, RunViaLayer
                        (ctor_runner (JIT w)
                           (length (ModuleSets (CODLayer (JIT w))) + i) M))
           (added_units rs).
Proof.
  split; [apply serve_all_Mang|].
  revert w. induction rs as [|r rs IH]; intros w; simpl.
  - by rewrite app_nil_r.
  - rewrite bind_run, IH, serve_run.
    destruct r as [M|Name|h Name|Name];
      [rewrite addModule_run | | |
       rewrite FallbackLookup_run; destruct (CODLayer_findSymbol _ _ _)];
      simpl; try done.
    rewrite <- app_assoc. simpl.
    rewrite Nat.add_0_r. do 2 f_equal.
    apply imap_ext. intros i M' _. simpl. rewrite length_app. simpl.
    replace (length (ModuleSets (CODLayer (JIT w))) + 1 + i)
      with (length (ModuleSets (CODLayer (JIT w))) + S i) by lia.
    f_equal; by apply ctor_runner_Mang.
Qed.

(** X12. Up to teardown the engine has run the constructor runners of the
    units added, one per unit, in the order the units were added and each
    tagged with the handle of its unit, and nothing else: no lookup and no
    resolution runs a routine, and no destructor runs before teardown. *)
Theorem constructors_run_on_adding (TM0 : TargetMachine) (rs : list Request) :
  Ran (after TM0 rs) =
    imap (λ h M, RunViaLayer (ctor_runner (OrcLazyJIT_new TM0) h M))
      (added_units rs).
Proof.
  unfold after. by destruct (served_log rs (boot TM0)) as [_ ->].
Qed.

(** The table built by the registry's constructor. *)
Lemma registry_built (f : string → string) (l : list (string * N))
    (n : string) (a : N) :
  NoDup ((λ e, f e.1) <$> l) → (n, a) ∈ l →
  foldl (λ m e, <[f e.1 := e.2]> m) (∅ : gmap string N) l !! f n = Some a.
Proof.
  induction l as [|e l IH] using rev_ind; intros Hnd Hin.
  - by apply elem_of_nil in Hin.
  - rewrite foldl_snoc. rewrite fmap_app in Hnd.
    apply NoDup_app in Hnd as (Hnd & Hfresh & _).
    apply elem_of_app in Hin as [Hin | He%list_elem_of_singleton].
    2: { subst e. simpl. by rewrite lookup_insert_eq. }
    rewrite lookup_insert_ne; [by apply IH|].
    intros Heq. apply (Hfresh (f n)).
    + apply list_elem_of_fmap. by exists (n, a).
    + simpl. rewrite Heq. apply list_elem_of_here.
Qed.

Lemma serve_registry (r : Request) (w : World) :
  CXXRuntimeOverrides (JIT (serve r w).2) = CXXRuntimeOverrides (JIT w).
Proof.
  rewrite serve_run. destruct r as [M|Name|h Name|Name]; try done.
  rewrite FallbackLookup_run. by destruct (CODLayer_findSymbol _ _ _).
Qed.

(** X13. The runtime-support routines are registered at construction
    under their mangled names and stay registered: when their mangled names
    are pairwise different then, at any time in the life of the engine, the
    registry answers the mangled name of a routine with the routine's
    address, also after teardown, and the resolver returns that address for
    the mangled name unless an added unit exports the name or the address is
    null. *)
Theorem runtime_support_stays_registered (TM0 : TargetMachine)
    (rs : list Request) (n : string) (a : N) :
  NoDup ((λ e, getNameWithPrefix (TM_getDataLayout TM0) e.1)
         <$> RuntimeSupport) →
  (n, a) ∈ RuntimeSupport →
  let w := after TM0 rs in
  let Name := mangle (JIT w) n in
  let Routine := {| Address := a; Flags := JITSymbolFlags_Exported |} in
  searchOverrides (CXXRuntimeOverrides (JIT w)) Name = Routine
  ∧ searchOverrides (CXXRuntimeOverrides (JIT (OrcLazyJIT_destroy w).2)) Name
    = Routine
  ∧ (¬ exports (CODLayer (JIT w)) Name → a ≠ 0%N →
     (FallbackLookup Name w).1 = Routine).
Proof.
  intros Hnd Hin. cbv zeta.
  assert (Mang (JIT (after TM0 rs)) = Mang (JIT (boot TM0))) as HMang
    by apply serve_all_Mang.
  assert (CXXRuntimeOverrides (JIT (after TM0 rs))
          = CXXRuntimeOverrides (JIT (boot TM0))) as Hreg.
  { apply (after_ind (λ w, CXXRuntimeOverrides (JIT w)
                           = CXXRuntimeOverrides (JIT (boot TM0)))); [done|].
    intros r w Hw. by rewrite serve_registry. }
  assert (Overrides (CXXRuntimeOverrides (JIT (after TM0 rs)))
            !! mangle (JIT (after TM0 rs)) n = @Some TargetAddress a)
    as Hlook.
  { rewrite Hreg, mangle_text, HMang. simpl.
    by apply (registry_built (getNameWithPrefix (TM_getDataLayout TM0))). }
  split_and!.
  - unfold searchOverrides. by rewrite Hlook.
  - rewrite OrcLazyJIT_destroy_run. unfold searchOverrides. simpl.
    by rewrite Hlook.
  - intros Hno%CODLayer_findSymbol_nullptr Hnz.
    rewrite FallbackLookup_run, Hno. cbn [fst first_success].
    unfold tier_overrides, TargetAddress in *. rewrite Hlook.
    by rewrite bool_decide_eq_false_2.
Qed.

(** Serving requests records the destructor runners of the units added,
    and nothing else. *)
Lemma served_runners (rs : list Request) (w : World) :
  IRStaticDestructorRunners (JIT (for_each rs serve w).2) =
    IRStaticDestructorRunners (JIT w)
    ++ imap (λ i M, dtor_runner (JIT w)
                      (length (ModuleSets (CODLayer (JIT w))) + i) M)
         (added_units rs).
Proof.
  revert w. induction rs as [|r rs IH]; intros w; simpl.
  - by rewrite app_nil_r.
  - rewrite bind_run, IH, serve_run.
    destruct r as [M|Name|h Name|Name];
      [rewrite addModule_run | | |
       rewrite FallbackLookup_run; destruct (CODLayer_findSymbol _ _ _)];
      simpl; try done.
    rewrite <- app_assoc. simpl.
    rewrite Nat.add_0_r. do 2 f_equal.
    apply imap_ext. intros i M' _. simpl. rewrite length_app. simpl.
    replace (length (ModuleSets (CODLayer (JIT w))) + 1 + i)
      with (length (ModuleSets (CODLayer (JIT w))) + S i) by lia.
    by apply dtor_runner_Mang.
Qed.

Lemma submitted_TM (E1 E2 : OrcLazyJIT) (M : Module) :
  TM E1 = TM E2 → submitted E1 M = submitted E2 M.
Proof. intros HTM. unfold submitted. by rewrite HTM. Qed.

Lemma serve_all_TM (rs : list Request) (w : World) :
  TM (JIT (for_each rs serve w).2) = TM (JIT w).
Proof.
  revert w. induction rs as [|r rs IH]; intros w; simpl; [done|].
  by rewrite bind_run, IH, serve_TM.
Qed.

(** Serving requests hands the units added to the layer, one module set
    per unit, and nothing else. *)
Lemma served_sets (rs : list Request) (w : World) :
  ModuleSets (CODLayer (JIT (for_each rs serve w).2)) =
    ModuleSets (CODLayer (JIT w))
    ++ ((λ M, [submitted (JIT w) M]) <$> added_units rs).
Proof.
  revert w. induction rs as [|r rs IH]; intros w; simpl.
  - by rewrite app_nil_r.
  - rewrite bind_run, IH, serve_run.
    destruct r as [M|Name|h Name|Name];
      [rewrite addModule_run | | |
       rewrite FallbackLookup_run; destruct (CODLayer_findSymbol _ _ _)];
      simpl; try done.
    by rewrite <- app_assoc.
Qed.

Lemma Forall2_imap {A B} (P : B → A → Prop) (f : nat → A → B)
    (l : list A) :
  (∀ i x, l !! i = Some x → P (f i x) x) → Forall2 P (imap f l) l.
Proof.
  revert f. induction l as [|x l IH]; intros f Hall; simpl.
  - constructor.
  - constructor; [by apply (Hall 0)|].
    apply IH. intros i y Hi. by apply (Hall (S i)).
Qed.

Lemma imap_zip_seq {A B} (f : nat → A → B) (n : nat) (l : list A) :
  imap (λ i, f (n + i)) l = zip_with f (seq n (length l)) l.
Proof.
  revert n. induction l as [|x l IH]; intros n; simpl; [done|].
  rewrite Nat.add_0_r. f_equal. rewrite <- IH.
  apply imap_ext. intros i y _. simpl. f_equal. lia.
Qed.

(** X10. At any time in the life of an engine the recorded destructor
    runners are those of the units added, one per unit and in the order of
    adding: the runner of a unit holds the unit's destructor names, each as
    the mangler of the target machine writes it, and is tagged with a handle
    under which the layer holds exactly that unit, as it was submitted.
    Every handle that is emitted is a handle under which the layer holds a
    module set. *)
Theorem engine_stays_consistent (TM0 : TargetMachine) (rs : list Request) :
  let w := after TM0 rs in
  Forall2
    (λ Runner M,
       CtorDtorNames Runner
       = (λ Dtor, getNameWithPrefix (TM_getDataLayout TM0)
                    (getName (Func Dtor))) <$> getDestructors M
       ∧ ModuleSets (CODLayer (JIT w)) !! CtorDtorRunner_H Runner
         = Some [submitted (JIT w) M])
    (IRStaticDestructorRunners (JIT w)) (added_units rs)
  ∧ (∀ h, h ∈ Emitted (CODLayer (JIT w)) →
          is_Some (ModuleSets (CODLayer (JIT w)) !! h)).
Proof.
  cbv zeta. split.
  - unfold after. rewrite served_runners, served_sets. simpl.
    apply Forall2_imap. intros i M Hi. simpl. split.
    + apply list_fmap_ext. intros _ Dtor _. by rewrite mangle_text.
    + rewrite list_lookup_fmap, Hi. simpl. do 2 f_equal.
      apply submitted_TM. symmetry. apply serve_all_TM.
  - intros h Hh. apply lookup_lt_is_Some.
    by destruct (after_consistent TM0 rs) as (_ & _ & _ & Hem); apply Hem.
Qed.

(** X15. Over a stretch of the life of an engine that ends with teardown,
    from any state of the engine and whatever lookups and resolutions come
    between: the constructors of every unit added in the stretch are run
    when the unit is added, in the order of adding; teardown then runs the
    cleanup routines pending in the registry at that time, after them the
    destructor runners recorded before the stretch, and after those the
    destructor runners of the units added in the stretch, in the order of
    adding; and the constructor runner and the destructor runner of a unit
    carry the same handle. *)
Theorem lifetime_log (w : World) (rs : list Request) :
  let w' := (for_each rs serve w).2 in
  ∃ hs : list ModuleHandleT,
    length hs = length (added_units rs)
    ∧ Ran (OrcLazyJIT_destroy w').2 =
        Ran w
        ++ zip_with (λ h M, RunViaLayer (ctor_runner (JIT w) h M))
             hs (added_units rs)
        ++ RunDestructors (Pending (CXXRuntimeOverrides (JIT w')))
           :: (RunViaLayer <$> IRStaticDestructorRunners (JIT w))
           ++ zip_with (λ h M, RunViaLayer (dtor_runner (JIT w) h M))
                hs (added_units rs).
Proof.
  cbv zeta.
  exists (seq (length (ModuleSets (CODLayer (JIT w))))
            (length (added_units rs))).
  split; [by rewrite length_seq|].
  rewrite OrcLazyJIT_destroy_run. simpl.
  destruct (served_log rs w) as [_ ->]. rewrite served_runners.
  rewrite <- app_assoc. do 2 f_equal.
  - apply (imap_zip_seq (λ h M, RunViaLayer (ctor_runner (JIT w) h M))).
  - do 2 f_equal. rewrite fmap_app. f_equal. rewrite fmap_imap.
    apply (imap_zip_seq (λ h M, RunViaLayer (dtor_runner (JIT w) h M))).
Qed.

End LifetimeProperties.

(** ** [fromTargetAddress] *)

(** X14. On a host with pointers of [ptr_bits] bits, [fromTargetAddress]
    gives back the address exactly when the address fits in a pointer, and
    two addresses that differ by two to the pointer width give the same
    pointer. *)
Theorem fromTargetAddress_lossless (ptr_bits : N) (Addr : TargetAddress) :
  (fromTargetAddress ptr_bits Addr = Addr ↔ (Addr < 2 ^ ptr_bits)%N)
  ∧ fromTargetAddress ptr_bits (Addr + 2 ^ ptr_bits)%N
    = fromTargetAddress ptr_bits Addr.
Proof.
  unfold fromTargetAddress, TargetAddress.
  assert (2 ^ ptr_bits ≠ 0)%N as Hpow by (apply N.pow_nonzero; lia).
  split.
  - by apply N.mod_small_iff.
  - rewrite <- (N.mul_1_l (2 ^ ptr_bits)) at 1.
    by rewrite N.Div0.mod_add.
Qed.

(** ** The further properties on the examples *)

Section MoreExamples.
Local Existing Instance ExampleTarget.
Local Existing Instance ExampleNames.

Example print_example :
  print example_finder "; debug info" =
    "; debug info"
    +:+ "Compile unit: DW_LANG_C99 from /src/a.c" +:+ newline
    +:+ "Subprogram: main from /src/a.c:3" +:+ newline
    +:+ "Global variable: counter from a.c:1 ('_ZL7counter')" +:+ newline
    +:+ "Type: int DW_ATE_signed" +:+ newline
    +:+ "Type: S from /src/a.c:2 DW_TAG_structure_type (identifier: '_ZTS1S')"
    +:+ newline
    +:+ "Type: unknown-tag(4660)" +:+ newline.
Proof. vm_compute. reflexivity. Qed.

(** A 32-bit host keeps the low 32 bits of an address; a 64-bit host keeps
    every 64-bit address. *)
Example fromTargetAddress_examples :
  fromTargetAddress 32 4294967301%N = 5%N
  ∧ fromTargetAddress 32 4294967296%N = 0%N
  ∧ fromTargetAddress 64 18446744073709551615%N = 18446744073709551615%N.
Proof. split_and!; vm_compute; reflexivity. Qed.

Lemma example_names_plain : plain_names.
Proof.
  intros n. unfold plain_option. simpl.
  split_and!; intros s; repeat case_bool_decide; intros [= <-];
    vm_compute; reflexivity.
Defined.

Lemma example_finder_plain : plain_finder example_finder.
Proof.
  unfold plain_finder, plain_option. simpl.
  split_and!; intros x Hx;
    repeat (apply elem_of_cons in Hx as [-> | Hx]);
    try (by apply elem_of_nil in Hx);
    split_and!; try (vm_compute; reflexivity);
    intros s [= <-]; vm_compute; reflexivity.
Defined.

Lemma print_one_line_per_record_witness :
  newlines (print example_finder "; debug info")
  = newlines "; debug info" + records example_finder.
Proof.
  apply (print_one_line_per_record example_finder "; debug info").
  - exact example_names_plain.
  - exact example_finder_plain.
Defined.

Lemma printFile_line_inj_witness : 12%N = 12%N.
Proof.
  apply (printFile_line_inj "Subprogram: f" "a.c" "/src" 12 12).
  - discriminate.
  - reflexivity.
Defined.

Lemma FallbackLookup_sound_witness :
  (∃ h Def, defines (CODLayer (JIT engine_AB)) h Def
            ∧ SymbolName Def = "_puts"
            ∧ Exported (SymbolFlags Def) = true
            ∧ SymbolAddress Def
              = Address (FallbackLookup "_puts" engine_AB).1)
  ∨ Overrides (CXXRuntimeOverrides (JIT engine_AB)) !! "_puts"
    = Some (Address (FallbackLookup "_puts" engine_AB).1)
  ∨ getSymbolAddressInProcess "_puts"
    = Address (FallbackLookup "_puts" engine_AB).1.
Proof.
  apply (FallbackLookup_sound "_puts" engine_AB).
  vm_compute. discriminate.
Defined.

Lemma findSymbol_resolver_agree_witness :
  (FallbackLookup (mangle (JIT engine_AB) "add") engine_AB).1
  = {| Address := 4112%N; Flags := JITSymbolFlags_Exported |}
  ∧ 0 ∈ Emitted (CODLayer
                   (JIT (FallbackLookup (mangle (JIT engine_AB) "add")
                           engine_AB).2)).
Proof.
  apply (findSymbol_resolver_agree "add" engine_AB 0
           (global "_add" 4112%N true)).
  vm_compute. reflexivity.
Defined.

(** [_main] is answered by B, which is emitted afterwards; [_puts] is
    answered by the host, and the engine is as before. *)
Lemma FallbackLookup_frame_witness :
  1 ∈ Emitted (CODLayer (JIT (FallbackLookup "_main" engine_AB).2))
  ∧ (FallbackLookup "_puts" engine_AB).2 = engine_AB.
Proof.
  split.
  - destruct (FallbackLookup_frame "_main" engine_AB)
      as (_ & _ & _ & _ & _ & _ & _ & Hhit & _).
    apply (Hhit 1 (global "_main" 8208%N true)). vm_compute. reflexivity.
  - destruct (FallbackLookup_frame "_puts" engine_AB)
      as (_ & _ & _ & _ & _ & _ & _ & _ & Hmiss).
    apply Hmiss. vm_compute. reflexivity.
Defined.


Lemma units_always_have_layout_witness :
  all_have_layout
    (after darwin [AddModule unit_A; Resolve "_add"; AddModule unit_B]).
Proof.
  apply (units_always_have_layout darwin
           [AddModule unit_A; Resolve "_add"; AddModule unit_B]).
  reflexivity.
Defined.

Lemma runtime_support_stays_registered_witness :
  (FallbackLookup "___cxa_atexit" (after darwin [AddModule unit_A])).1
  = {| Address := 4096%N; Flags := JITSymbolFlags_Exported |}.
Proof.
  destruct (runtime_support_stays_registered darwin [AddModule unit_A]
              "__cxa_atexit" 4096%N) as (_ & _ & Hres).
  - apply (bool_decide_unpack _). vm_compute. exact I.
  - apply list_elem_of_here.
  - apply Hres.
    + apply CODLayer_findSymbol_nullptr. vm_compute. reflexivity.
    + discriminate.
Defined.

(** A stretch that starts with a cleanup routine pending: C is added, a
    name is resolved, and the engine is torn down. *)
Example lifetime_example :
  Ran (OrcLazyJIT_destroy
         (for_each [AddModule unit_C; Resolve "_add"] serve
            engine_AB_pending).2).2
  = Ran engine_AB_pending
    ++ [RunViaLayer {| CtorDtorNames := ["_ctorC"]; CtorDtorRunner_H := 2 |};
        RunDestructors [(8240%N, 0%N)];
        RunViaLayer runner_A; RunViaLayer runner_B; RunViaLayer runner_C].
Proof. vm_compute. reflexivity. Qed.

(** After A was added and [_add] was resolved, unit 0 is emitted, and the
    layer holds a module set under that handle. *)
Lemma engine_stays_consistent_witness :
  is_Some
    (ModuleSets
       (CODLayer (JIT (after darwin [AddModule unit_A; Resolve "_add"])))
     !! 0).
Proof.
  apply (proj2 (engine_stays_consistent darwin
                  [AddModule unit_A; Resolve "_add"]) 0).
  apply (bool_decide_unpack _). vm_compute. exact I.
Defined.

Lemma fromTargetAddress_lossless_witness :
  fromTargetAddress 64 4112%N = 4112%N.
Proof.
  apply (proj1 (fromTargetAddress_lossless 64 4112%N)).
  vm_compute. reflexivity.
Defined.

End MoreExamples.
